(** * Lighthouse MCP server: the report pipeline of [src/index.ts]

    The server exposes one tool, [get-lighthouse-report].  A call builds a
    PageSpeed Insights query, performs one [fetch] under a deadline, and
    renders the decoded JSON into a text report.  This development embeds

    - the fragment of ECMAScript the program relies on (module [JS]):
      optional properties, truthiness, [||], template literals,
      [Math.round], [Number::toString] on integral values, [join]
      and [encodeURIComponent];
    - the response shape declared by the [PageSpeedResponse] interface
      (module [PageSpeed]);
    - the process environment, the network and the console as an explicit
      world threaded by a state monad (module [Net]);
    - the three functions and the tool handler (module [Server]);

    and then states and proves the properties of the report. *)

From Stdlib Require Import ZArith QArith Qround Qpower Qabs List String Ascii Bool Lia.
From Stdlib Require Import DecimalString.
From Stdlib Require Import Floats.SpecFloat.
From Stdlib Require Import Permutation Lqa.
From ExtLib Require Import Structures.Monad Structures.MonadState.
From ExtLib Require Import Data.Monads.StateMonad.
Import ListNotations.
Import MonadNotation.

Local Open Scope list_scope.
Local Open Scope string_scope.

(* ===================================================================== *)
(** * The ECMAScript fragment                                             *)
(* ===================================================================== *)

Module JS.

(** ** Optional properties

    A property read off an object decoded by [JSON.parse] is absent
    ([undefined]), the JSON literal [null], or a value. *)
Inductive field (A : Type) : Type :=
| Undefined
| Null
| Val (a : A).
Arguments Undefined {A}.
Arguments Null {A}.
Arguments Val {A} a.

(** [a?.p]: [undefined] when [a] is [undefined] or [null], else [a.p]. *)
Definition chain {A B : Type} (a : field A) (p : A -> field B) : field B :=
  match a with
  | Val x => p x
  | Undefined | Null => Undefined
  end.

(** [ToBoolean] of a property that holds an object: objects are truthy,
    [undefined] and [null] are falsy. *)
Definition truthy_object {A : Type} (a : field A) : bool :=
  match a with
  | Val _ => true
  | Undefined | Null => false
  end.

(** [ToBoolean] of a property that holds a string: the empty string is
    falsy as well. *)
Definition truthy_string (a : field string) : bool :=
  match a with
  | Val s => negb (s =? "")
  | Undefined | Null => false
  end.

(** [a || d] with [a] a string property and [d] a string: [d] when [a]
    is falsy. *)
Definition or_string (a : field string) (d : string) : string :=
  match a with
  | Val s => if s =? "" then d else s
  | Undefined | Null => d
  end.

(** [a === lit] with [lit] a string literal. *)
Definition strict_eq_string (a : field string) (lit : string) : bool :=
  match a with
  | Val s => s =? lit
  | Undefined | Null => false
  end.

(** [`${a}`]: [ToString] of a string property. *)
Definition interpolate (a : field string) : string :=
  match a with
  | Undefined => "undefined"
  | Null => "null"
  | Val s => s
  end.

(** ** Exceptions

    What the program can throw or be thrown at: the abort of a [fetch],
    a transport failure or a property read off [undefined] (both
    [TypeError]), the rejection of [response.json()], and the program's
    own [new Error(`HTTP error! status: ${status}`)]. *)
Inductive exception : Type :=
| AbortError
| TypeError
| SyntaxError
| HttpError (status : Z).

(** The completion of an evaluation: a value, or a throw. *)
Inductive completion (A : Type) : Type :=
| Normal (a : A)
| Throw (e : exception).
Arguments Normal {A} a.
Arguments Throw {A} e.

Definition bind_completion {A B : Type}
    (c : completion A) (k : A -> completion B) : completion B :=
  match c with
  | Normal a => k a
  | Throw e => Throw e
  end.

(** [xs.map(f)] with a callback that may throw: the first throw ends the
    traversal. *)
Fixpoint map_completion {A B : Type}
    (f : A -> completion B) (xs : list A) : completion (list B) :=
  match xs with
  | [] => Normal []
  | x :: rest =>
      bind_completion (f x) (fun y =>
      bind_completion (map_completion f rest) (fun ys =>
      Normal (y :: ys)))
  end.

(** ** Objects used as maps

    The own enumerable properties of an object decoded by [JSON.parse],
    in enumeration order, each key once. *)
Definition object (A : Type) : Type := list (string * A).

(** [o[key]] *)
Fixpoint get_property {A : Type} (o : object A) (key : string) : field A :=
  match o with
  | [] => Undefined
  | (k, v) :: rest => if k =? key then Val v else get_property rest key
  end.

(** [Object.values(o)] *)
Definition Object_values {A : Type} (o : object A) : list A := map snd o.

(** ** Strings and arrays of strings *)

Definition LF : string := String (ascii_of_nat 10) EmptyString.

(** [xs.join(sep)] on an array whose elements are all strings. *)
Definition join (sep : string) (xs : list string) : string :=
  String.concat sep xs.

(** ** Numbers: IEEE 754 binary64

    A Number is a [spec_float] that is [valid_binary] for a precision of 53
    bits and [emax = 1024]; the operations are the Standard Library's
    specification of the format.  None of the properties below needs the
    validity of a number it is stated for. *)

Definition number : Type := spec_float.
Definition prec : Z := 53%Z.
Definition emax : Z := 1024%Z.

(** The double denoted by an integer literal. *)
Definition Number_of_Z (z : Z) : number := binary_normalize prec emax z 0 false.

(** [x * y], [x < y]. *)
Definition mul (x y : number) : number := SFmul prec emax x y.
Definition lt (x y : number) : bool := SFltb x y.
Definition le (x y : number) : bool := SFleb x y.

(** [ToNumber] of a property that holds a number or [null]:
    [null] converts to [+0]. *)
Definition ToNumber_null : number := S754_zero false.

(** The real number a finite double stands for. *)
Definition Q_of_finite (s : bool) (m : positive) (e : Z) : Q :=
  (inject_Z (cond_Zopp s (Zpos m)) * Qpower (2 # 1) e)%Q.

(** The values [Math.round] can return: an integral double, [NaN] or an
    infinity.  The sign of a zero result is dropped: [ToString] prints
    both zeros as [0]. *)
Inductive integral : Type :=
| INaN
| IInfinity (negative : bool)
| IInteger (z : Z).

(** [Math.round(x)]: the integer closest to [x], ties towards
    [+Infinity], that is [floor(x + 1/2)] computed exactly. *)
Definition Math_round (x : number) : integral :=
  match x with
  | S754_nan => INaN
  | S754_infinity s => IInfinity s
  | S754_zero _ => IInteger 0
  | S754_finite s m e => IInteger (Qfloor (Q_of_finite s m e + (1 # 2)))
  end.

(** Decimal digits of an integer, with a leading [-] when negative. *)
Definition decimal (z : Z) : string := NilZero.string_of_int (Z.to_int z).

(** *** [Number::toString] on integral doubles

    An integer below [2^53] prints all its digits.  From [2^53] on, the
    digits are those of the shortest decimal [s * 10^j] that reads back
    as the same double; among several of that length the one closest to
    the double, then the even one.  [z] is the double's exact value; the
    next double lies [2^e] above and the previous one [2^e] (or [2^(e-1)]
    when [z] is a power of two) below, with [e = log2 z - 52]; a decimal
    reads back as [z] when it lies within half a gap, the ends included
    when the mantissa of [z] is even.  Bounds are compared doubled. *)
Definition in_range (lo hi c : Z) : bool := ((lo <=? c) && (c <=? hi))%Z.

Definition shortest_at (z j : Z) : option Z :=
  let e := (Z.log2 z - 52)%Z in
  let above := (2 ^ e)%Z in
  let below := (if z =? 2 ^ Z.log2 z then 2 ^ (e - 1) else 2 ^ e)%Z in
  let closed := Z.even (z / 2 ^ e) in
  let p := (10 ^ j)%Z in
  let lo := (2 * z - below)%Z in
  let hi := (2 * z + above)%Z in
  let s_lo := (if closed then - ((- lo) / (2 * p)) else lo / (2 * p) + 1)%Z in
  let s_hi := (if closed then hi / (2 * p) else - ((- hi) / (2 * p)) - 1)%Z in
  let q := (z / p)%Z in
  let r := (z mod p)%Z in
  let q_first := (if 2 * r =? p then Z.even q else 2 * r <? p)%Z in
  let first := (if q_first then q else q + 1)%Z in
  let second := (if q_first then q + 1 else q)%Z in
  if in_range s_lo s_hi first then Some first
  else if in_range s_lo s_hi second then Some second
  else None.

(** The largest [j], from the given one downwards, at which a decimal
    [s * 10^j] reads back as [z], with its [s]. *)
Fixpoint shortest_from (z : Z) (j : nat) : Z * Z :=
  match shortest_at z (Z.of_nat j) with
  | Some s => (s, Z.of_nat j)
  | None =>
      match j with
      | O => (z, 0%Z)
      | S j' => shortest_from z j'
      end
  end.

Fixpoint zeros (n : nat) : string :=
  match n with
  | O => EmptyString
  | S n' => String "0"%char (zeros n')
  end.

(** [z > 0].  With [k] digits and [n = k + j]: when [n <= 21] the digits
    followed by [n - k] zeros, otherwise exponent notation. *)
Definition Number_toString_positive (z : Z) : string :=
  if (z <? 2 ^ 53)%Z then decimal z
  else
    let '(s, j) := shortest_from z (Z.to_nat (Z.log2 z)) in
    let digits := decimal s in
    let n := (Z.of_nat (String.length digits) + j)%Z in
    if (n <=? 21)%Z then digits ++ zeros (Z.to_nat j)
    else
      match digits with
      | String d EmptyString => String d EmptyString ++ "e+" ++ decimal (n - 1)
      | String d rest => String d EmptyString ++ "." ++ rest ++ "e+" ++ decimal (n - 1)
      | EmptyString => EmptyString
      end.

(** [Number::toString] (radix 10) on the values [Math.round] returns. *)
Definition Number_toString (x : integral) : string :=
  match x with
  | INaN => "NaN"
  | IInfinity false => "Infinity"
  | IInfinity true => "-Infinity"
  | IInteger z =>
      if (z =? 0)%Z then "0"
      else if (z <? 0)%Z then "-" ++ Number_toString_positive (- z)
      else Number_toString_positive z
  end.

(** ** [encodeURIComponent]

    Strings are taken as their UTF-8 bytes: every byte outside the
    unreserved set [A-Z a-z 0-9 - _ . ! ~ * ' ( )] becomes [%XX]. *)
Definition between (lo hi n : nat) : bool := (Nat.leb lo n && Nat.leb n hi)%bool.

Definition unreserved (c : ascii) : bool :=
  let n := nat_of_ascii c in
  (between 65 90 n || between 97 122 n || between 48 57 n
   || existsb (Ascii.eqb c) (list_ascii_of_string "-_.!~*'()"))%bool.

Definition hex_digit (n : nat) : string :=
  String.substring n 1 "0123456789ABCDEF".

Fixpoint encodeURIComponent (s : string) : string :=
  match s with
  | EmptyString => EmptyString
  | String c rest =>
      (if unreserved c then String c EmptyString
       else "%" ++ hex_digit (Nat.div (nat_of_ascii c) 16)
                ++ hex_digit (Nat.modulo (nat_of_ascii c) 16))
      ++ encodeURIComponent rest
  end.

End JS.

(* ===================================================================== *)
(** * The response shape: [interface PageSpeedResponse]                   *)
(* ===================================================================== *)

(** Every property of the interface is optional; the program also meets
    [null] where a value may be missing and tests for it, so a property
    here is absent, [null], or a value of its declared type.  An entry of
    the [audits] mapping is an audit object.  [loadingExperience] is
    declared and never read. *)
Module PageSpeed.
Import JS.

(** [details?: any]: the program reads its [type] property only, and
    compares it with a string. *)
Module Details.
Record t : Type := { type : field string }.
End Details.

Module Audit.
Record t : Type := {
  id : field string;
  title : field string;
  description : field string;
  score : field number;
  displayValue : field string;
  numericValue : field number;
  details : field Details.t
}.
End Audit.

Module Category.
Record t : Type := { score : field number }.
End Category.

Module Categories.
Record t : Type := {
  performance : field Category.t;
  accessibility : field Category.t;
  best_practices : field Category.t;
  seo : field Category.t;
  pwa : field Category.t
}.
End Categories.

Module LighthouseResult.
Record t : Type := {
  categories : field Categories.t;
  audits : field (object Audit.t)
}.
End LighthouseResult.

Module Metric.
Record t : Type := { percentile : field number; category : field string }.
End Metric.

Module Metrics.
Record t : Type := {
  FIRST_CONTENTFUL_PAINT_MS : field Metric.t;
  FIRST_INPUT_DELAY_MS : field Metric.t
}.
End Metrics.

Module LoadingExperience.
Record t : Type := {
  metrics : field Metrics.t;
  overall_category : field string
}.
End LoadingExperience.

Module Error.
Record t : Type := { code : field number; message : field string }.
End Error.

Record PageSpeedResponse : Type := {
  lighthouseResult : field LighthouseResult.t;
  loadingExperience : field LoadingExperience.t;
  error : field Error.t
}.

End PageSpeed.

(* ===================================================================== *)
(** * The tool's arguments                                                *)
(* ===================================================================== *)

Module Tool.
Import JS.

(** [z.enum(["performance", "accessibility", "best-practices", "seo", "pwa"])] *)
Inductive category : Type :=
| performance | accessibility | best_practices | seo | pwa.

(** [z.enum(["mobile", "desktop"])] *)
Inductive strategy : Type :=
| mobile | desktop.

Definition category_name (c : category) : string :=
  match c with
  | performance => "performance"
  | accessibility => "accessibility"
  | best_practices => "best-practices"
  | seo => "seo"
  | pwa => "pwa"
  end.

Definition strategy_name (s : strategy) : string :=
  match s with
  | mobile => "mobile"
  | desktop => "desktop"
  end.

(** The arguments after schema validation; an optional one may be left
    out by the caller. *)
Record Args : Type := {
  url : string;
  category_arg : option category;
  strategy_arg : option strategy;
  timeout : option number
}.

Record Content : Type := { type : string; text : string }.
Record Result : Type := { content : list Content }.

End Tool.

(* ===================================================================== *)
(** * The world: environment, network, console                            *)
(* ===================================================================== *)

Module Net.
Import JS PageSpeed.
Local Open Scope monad_scope.

(** What [response.json()] makes of the body: a rejection, the literal
    [null], or an object read as a [PageSpeedResponse]. *)
Inductive Body : Type :=
| Malformed
| JsonNull
| JsonObject (data : PageSpeedResponse).

Record Response : Type := { status : Z; body : Body }.

(** [response.ok]: the status is in the range 200-299. *)
Definition ok (r : Response) : bool :=
  ((200 <=? status r) && (status r <=? 299))%Z.

(** How one [fetch] under an [AbortController] ends: the timer fired
    first, the transport failed, or a response arrived. *)
Inductive FetchOutcome : Type :=
| Aborted
| Failed
| Responded (r : Response).

(** Lines written with [console.error]. *)
Inductive LogEvent : Type :=
| TimedOut (timeoutMs : number)
| RequestError (e : exception).

Record World : Type := {
  env_PAGESPEED_API_KEY : field string;
  network : nat -> FetchOutcome;
  requests : list string;
  console : list LogEvent
}.

Definition sent (apiUrl : string) (w : World) : World :=
  {| env_PAGESPEED_API_KEY := env_PAGESPEED_API_KEY w;
     network := network w;
     requests := (requests w ++ [apiUrl])%list;
     console := console w |}.

Definition logged (e : LogEvent) (w : World) : World :=
  {| env_PAGESPEED_API_KEY := env_PAGESPEED_API_KEY w;
     network := network w;
     requests := requests w;
     console := (console w ++ [e])%list |}.

(** [fetch(apiUrl, {signal})]: the request is recorded; the outcome of
    the n-th request of a run is the world's to give. *)
Definition fetch (apiUrl : string) : state World FetchOutcome :=
  w <- get ;;
  put (sent apiUrl w) ;;
  ret (network w (List.length (requests w))).

Definition console_error (e : LogEvent) : state World unit :=
  w <- get ;;
  put (logged e w).

End Net.

(* ===================================================================== *)
(** * The program                                                         *)
(* ===================================================================== *)

Module Server.
Import JS PageSpeed Tool Net.
Local Open Scope monad_scope.

Definition PAGESPEED_API_BASE : string :=
  "https://www.googleapis.com/pagespeedonline/v5/runPagespeed".

(** [process.env.PAGESPEED_API_KEY || ""] *)
Definition PAGESPEED_API_KEY (w : World) : string :=
  or_string (env_PAGESPEED_API_KEY w) "".

(** The [try] block of [makePageSpeedRequest] once [fetch] has settled:
    a rejection is thrown on, a response goes through the [ok] test and
    the decoding of its body. *)
Definition settle (outcome : FetchOutcome)
  : completion (option PageSpeedResponse) :=
  match outcome with
  | Aborted => Throw AbortError
  | Failed => Throw TypeError
  | Responded response =>
      if negb (ok response) then Throw (HttpError (status response))
      else
        match body response with
        | Malformed => Throw SyntaxError
        | JsonNull => Normal None
        | JsonObject data => Normal (Some data)
        end
  end.

(** The [catch] block: what is written to the console. *)
Definition report_failure (error : exception) (timeoutMs : number) : LogEvent :=
  match error with
  | AbortError => TimedOut timeoutMs
  | _ => RequestError error
  end.

(** The handler passes all five arguments, so the defaults of the
    parameters are never used. *)
Definition apiUrl (url strategy category apiKey : string) : string :=
  PAGESPEED_API_BASE ++ "?url=" ++ encodeURIComponent url
    ++ "&strategy=" ++ strategy ++ "&category=" ++ category
    ++ "&key=" ++ apiKey.

Definition makePageSpeedRequest
    (url strategy category apiKey : string) (timeoutMs : number)
  : state World (option PageSpeedResponse) :=
  outcome <- fetch (apiUrl url strategy category apiKey) ;;
  match settle outcome with
  | Normal data => ret data
  | Throw error =>
      console_error (report_failure error timeoutMs) ;;
      ret None
  end.

Definition metrics : list string :=
  [ "first-contentful-paint";
    "largest-contentful-paint";
    "total-blocking-time";
    "cumulative-layout-shift";
    "speed-index";
    "interactive" ].

(** [data.lighthouseResult?.audits] *)
Definition lighthouse_audits (data : PageSpeedResponse)
  : field (object Audit.t) :=
  chain (lighthouseResult data) LighthouseResult.audits.

(** [`${audit.title || metric}: ${audit.displayValue || "N/A"}`] *)
Definition metric_text (audit : Audit.t) (metric : string) : string :=
  or_string (Audit.title audit) metric ++ ": "
    ++ or_string (Audit.displayValue audit) "N/A".

(** The callback of [.map] in [formatPerformanceMetrics]: it reads
    [audits[metric]] again and takes [title] and [displayValue] off it,
    which throws when there is no such audit. *)
Definition metric_line (audits : object Audit.t) (metric : string)
  : completion string :=
  match get_property audits metric with
  | Val audit => Normal (metric_text audit metric)
  | Undefined | Null => Throw TypeError
  end.

Definition formatPerformanceMetrics (data : PageSpeedResponse)
  : completion string :=
  match lighthouse_audits data with
  | Undefined | Null => Normal "No performance metrics available"
  | Val audits =>
      bind_completion
        (map_completion (metric_line audits)
           (filter (fun metric => truthy_object (get_property audits metric))
                   metrics))
        (fun lines => Normal (join LF lines))
  end.

(** The callback of [.filter] in [formatOpportunities]. *)
Definition is_opportunity (audit : Audit.t) : bool :=
  strict_eq_string (chain (Audit.details audit) Details.type) "opportunity"
  && match Audit.score audit with
     | Null => false
     | Undefined => false
     | Val score => lt score (Number_of_Z 1)
     end.

(** The callback of [.map] in [formatOpportunities]. *)
Definition opportunity_line (opp : Audit.t) : string :=
  let savings :=
    if truthy_string (Audit.displayValue opp)
    then " (" ++ interpolate (Audit.displayValue opp) ++ ")"
    else "" in
  interpolate (Audit.title opp) ++ savings.

(** [Object.values(audits).filter(...)] *)
Definition opportunities (audits : object Audit.t) : list Audit.t :=
  filter is_opportunity (Object_values audits).

Definition formatOpportunities (data : PageSpeedResponse) : string :=
  match lighthouse_audits data with
  | Undefined | Null => "No opportunities available"
  | Val audits =>
      if Nat.eqb (List.length (opportunities audits)) 0
      then "No improvement opportunities found"
      else join LF (map opportunity_line (opportunities audits))
  end.

(** [categories?.[category]] *)
Definition category_entry (c : Categories.t) (category : Tool.category)
  : field Category.t :=
  match category with
  | performance => Categories.performance c
  | accessibility => Categories.accessibility c
  | best_practices => Categories.best_practices c
  | seo => Categories.seo c
  | pwa => Categories.pwa c
  end.

(** [data.lighthouseResult?.categories?.[category]?.score] *)
Definition category_score (data : PageSpeedResponse) (category : Tool.category)
  : field number :=
  chain (chain (chain (lighthouseResult data) LighthouseResult.categories)
               (fun c => category_entry c category))
        Category.score.

(** [score !== undefined ? Math.round(score * 100) : "N/A"], a number or
    a string. *)
Inductive score_text : Type :=
| Rounded (n : integral)
| Literal (s : string).

Definition formattedScore (score : field number) : score_text :=
  match score with
  | Undefined => Literal "N/A"
  | Null => Rounded (Math_round (mul ToNumber_null (Number_of_Z 100)))
  | Val x => Rounded (Math_round (mul x (Number_of_Z 100)))
  end.

(** [`${formattedScore}`] *)
Definition interpolate_score (s : score_text) : string :=
  match s with
  | Rounded n => Number_toString n
  | Literal s => s
  end.

(** [`Score: ${formattedScore}/100`] *)
Definition score_line (formattedScore : score_text) : string :=
  "Score: " ++ interpolate_score formattedScore ++ "/100".

Definition text_content (t : string) : Tool.Result :=
  {| content := [ {| type := "text"; text := t |} ] |}.

(** The handler from [if (data.error)] on: the response is at hand. *)
Definition respond (url : string) (category : Tool.category)
    (strategy : Tool.strategy) (data : PageSpeedResponse)
  : completion Tool.Result :=
  match error data with
  | Val e =>
      Normal (text_content
                ("Error: " ++ or_string (Error.message e) "Unknown error"))
  | Undefined | Null =>
      let score := category_score data category in
      let formattedScore := formattedScore score in
      bind_completion (formatPerformanceMetrics data) (fun key_metrics =>
      let responseText :=
        join LF
          [ "Lighthouse " ++ category_name category ++ " report for: " ++ url;
            "Strategy: " ++ strategy_name strategy;
            score_line formattedScore;
            "";
            "--- Key Metrics ---";
            key_metrics;
            "";
            "--- Opportunities for Improvement ---";
            formatOpportunities data ] in
      Normal (text_content responseText))
  end.

Definition default {A : Type} (d : A) (o : option A) : A :=
  match o with
  | Some a => a
  | None => d
  end.

(** The handler of [get-lighthouse-report]. *)
Definition handler (args : Args) : state World (completion Tool.Result) :=
  let url := Tool.url args in
  let category := default performance (category_arg args) in
  let strategy := default mobile (strategy_arg args) in
  let timeout := default (Number_of_Z 60000) (Tool.timeout args) in
  w <- get ;;
  data <- makePageSpeedRequest url (strategy_name strategy)
            (category_name category) (PAGESPEED_API_KEY w) timeout ;;
  match data with
  | None =>
      ret (Normal (text_content ("Failed to retrieve Lighthouse data for " ++ url)))
  | Some data => ret (respond url category strategy data)
  end.

End Server.

(* ===================================================================== *)
(** * Reference notions the properties are stated with                    *)
(* ===================================================================== *)

Module Spec.
Import JS PageSpeed Tool Net Server.

(** Rounding to the nearest integer, a tie going away from zero. *)
Definition round_half_away_from_zero (q : Q) : Z :=
  if Qle_bool 0 q then Qfloor (q + (1 # 2))
  else (- Qfloor (- q + (1 # 2)))%Z.

(** The same on doubles: [NaN] and the infinities have no nearest
    integer and stay what they are. *)
Definition round_number (x : number) : integral :=
  match x with
  | S754_nan => INaN
  | S754_infinity s => IInfinity s
  | S754_zero _ => IInteger 0
  | S754_finite s m e => IInteger (round_half_away_from_zero (Q_of_finite s m e))
  end.

(** The outcome the network holds for the next request. *)
Definition next_outcome (w : World) : FetchOutcome :=
  network w (List.length (requests w)).

(** The four ways a request brings no data. *)
Inductive no_data : FetchOutcome -> Prop :=
| timed_out : no_data Aborted
| network_error : no_data Failed
| bad_status (r : Response) : ok r = false -> no_data (Responded r)
| malformed_body (r : Response) :
    ok r = true -> body r = Malformed -> no_data (Responded r).

(** The outcome is a successful response whose body decodes to [data]. *)
Definition delivers (o : FetchOutcome) (data : PageSpeedResponse) : Prop :=
  exists r, o = Responded r /\ ok r = true /\ body r = JsonObject data.

(** The request the handler sends for [args] in world [w]. *)
Definition request_of (args : Args) (w : World) : string :=
  apiUrl (url args)
    (strategy_name (default mobile (strategy_arg args)))
    (category_name (default performance (category_arg args)))
    (PAGESPEED_API_KEY w).

(** A property is absent: [undefined] or [null]. *)
Definition absent {A : Type} (a : field A) : Prop :=
  a = Undefined \/ a = Null.

(** [<title-or-id>]: the title when there is a non-empty one, else the
    identifier.  [<displayValue-or-N/A>] likewise. *)
Definition title_or_id (a : Audit.t) (id : string) : string :=
  match Audit.title a with
  | Val EmptyString => id
  | Val t => t
  | Undefined | Null => id
  end.

Definition displayValue_or_NA (a : Audit.t) : string :=
  match Audit.displayValue a with
  | Val EmptyString => "N/A"
  | Val d => d
  | Undefined | Null => "N/A"
  end.

(** The lines of the Key Metrics block: for each identifier, in the
    order given, one line when the mapping holds it and none otherwise. *)
Definition key_metric_lines (audits : object Audit.t) (ids : list string)
  : list string :=
  flat_map
    (fun id =>
       match get_property audits id with
       | Val a => [title_or_id a id ++ ": " ++ displayValue_or_NA a]
       | Undefined | Null => []
       end)
    ids.

(** An audit is an opportunity to report: its details are of type
    [opportunity] and it has a score, below 1. *)
Definition qualifies (a : Audit.t) : Prop :=
  chain (Audit.details a) Details.type = Val "opportunity"
  /\ exists x, Audit.score a = Val x /\ lt x (Number_of_Z 1) = true.

(** The suffix of an opportunity line: the display value in
    parentheses when there is a non-empty one. *)
Definition savings_suffix (a : Audit.t) : string :=
  match Audit.displayValue a with
  | Val EmptyString => ""
  | Val d => " (" ++ d ++ ")"
  | Undefined | Null => ""
  end.

(** The requested category, or its score, is not in the response. *)
Inductive score_missing (data : PageSpeedResponse) (category : Tool.category)
  : Prop :=
| no_result :
    absent (lighthouseResult data) -> score_missing data category
| no_categories lr :
    lighthouseResult data = Val lr ->
    absent (LighthouseResult.categories lr) -> score_missing data category
| no_category lr cs :
    lighthouseResult data = Val lr ->
    LighthouseResult.categories lr = Val cs ->
    absent (category_entry cs category) -> score_missing data category
| no_score lr cs c :
    lighthouseResult data = Val lr ->
    LighthouseResult.categories lr = Val cs ->
    category_entry cs category = Val c ->
    Category.score c = Undefined -> score_missing data category.

End Spec.

(* ===================================================================== *)
(** * Sample responses and worlds                                         *)
(* ===================================================================== *)

Module Samples.
Import JS PageSpeed Tool Net Server.

Definition audit (title : field string) (score : field number)
    (displayValue : field string) (details_type : field string) : Audit.t :=
  {| Audit.id := Undefined;
     Audit.title := title;
     Audit.description := Undefined;
     Audit.score := score;
     Audit.displayValue := displayValue;
     Audit.numericValue := Undefined;
     Audit.details := Val {| Details.type := details_type |} |}.

Definition performance_only (score : field number) : Categories.t :=
  {| Categories.performance := Val {| Category.score := score |};
     Categories.accessibility := Undefined;
     Categories.best_practices := Undefined;
     Categories.seo := Undefined;
     Categories.pwa := Undefined |}.

Definition response (categories : field Categories.t)
    (audits : field (object Audit.t)) : PageSpeedResponse :=
  {| lighthouseResult :=
       Val {| LighthouseResult.categories := categories;
              LighthouseResult.audits := audits |};
     loadingExperience := Undefined;
     error := Undefined |}.

Definition error_response (message : field string) : PageSpeedResponse :=
  {| lighthouseResult := Undefined;
     loadingExperience := Undefined;
     error := Val {| Error.code := Val (Number_of_Z 400);
                     Error.message := message |} |}.

(** [0.5], and the double nearest to [0.873]. *)
Definition one_half : number := S754_finite false 4503599627370496 (-53).
Definition score_0_873 : number := S754_finite false 7863284949388886 (-53).

(** [{"lighthouseResult": {"audits": {}}}] *)
Definition empty_audits : PageSpeedResponse := response Undefined (Val []).

(** [{"lighthouseResult": {}}] *)
Definition absent_audits : PageSpeedResponse := response Undefined Undefined.

(** One opportunity without a title. *)
Definition untitled_opportunity : PageSpeedResponse :=
  response Undefined
    (Val [("unused-javascript",
           audit Undefined (Val one_half) Undefined (Val "opportunity"))]).

(** One opportunity whose display value is the empty string. *)
Definition empty_display_value : PageSpeedResponse :=
  response Undefined
    (Val [("unused-javascript",
           audit (Val "Reduce JavaScript") (Val one_half) (Val "")
             (Val "opportunity"))]).

(** The opportunity of the specification's example, and one that scores 1. *)
Definition reduce_javascript : Audit.t :=
  audit (Val "Reduce JavaScript") (Val one_half)
    (Val "Potential savings of 300 ms") (Val "opportunity").

Definition passed_opportunity : Audit.t :=
  audit (Val "Reduce JavaScript") (Val (Number_of_Z 1))
    (Val "Potential savings of 300 ms") (Val "opportunity").

Definition two_opportunities : PageSpeedResponse :=
  response Undefined
    (Val [("unused-javascript", reduce_javascript);
          ("unminified-javascript", passed_opportunity)]).

(** Only [speed-index] among the six key metrics. *)
Definition speed_index_only : PageSpeedResponse :=
  response Undefined
    (Val [("speed-index",
           audit (Val "Speed Index") (Val one_half) (Val "2.1 s")
             (Val "numeric"))]).

Definition scored (score : field number) : PageSpeedResponse :=
  response (Val (performance_only score)) Undefined.

Definition args : Args :=
  {| url := "https://example.com/";
     category_arg := None;
     strategy_arg := None;
     timeout := None |}.

(** A world whose network answers every request with [o]. *)
Definition world (o : FetchOutcome) : World :=
  {| env_PAGESPEED_API_KEY := Val "k";
     network := fun _ => o;
     requests := [];
     console := [] |}.

(** The same network after an earlier request that timed out. *)
Definition used_world (o : FetchOutcome) : World :=
  {| env_PAGESPEED_API_KEY := Undefined;
     network := fun _ => o;
     requests := ["https://www.googleapis.com/"];
     console := [TimedOut (Number_of_Z 60000)] |}.

Definition success (data : PageSpeedResponse) : FetchOutcome :=
  Responded {| status := 200; body := JsonObject data |}.

End Samples.

(* ===================================================================== *)
(** * Further notions: reading a request and a result back               *)
(* ===================================================================== *)

Module Notions.
Import JS PageSpeed Tool Net Server Spec.


(** [c] occurs in [s]. *)
Fixpoint occurs (c : ascii) (s : string) : bool :=
  match s with
  | EmptyString => false
  | String c' rest => Ascii.eqb c c' || occurs c rest
  end.

(** One character of a target, encoded as [encodeURIComponent] does. *)
Definition encoded_char (c : ascii) : string :=
  if unreserved c then String c EmptyString
  else "%" ++ hex_digit (Nat.div (nat_of_ascii c) 16)
           ++ hex_digit (Nat.modulo (nat_of_ascii c) 16).

(** Percent-decoding, byte by byte: [%XY] with two upper-case hexadecimal
    digits stands for the byte [XY], any other character for itself. *)
Definition hex_value (c : ascii) : option nat :=
  let n := nat_of_ascii c in
  if between 48 57 n then Some (n - 48)%nat
  else if between 65 70 n then Some (n - 55)%nat
  else None.

Fixpoint percent_decode (s : string) : string :=
  match s with
  | EmptyString => EmptyString
  | String c rest =>
      if Ascii.eqb c "%" then
        match rest with
        | String h (String l rest') =>
            match hex_value h, hex_value l with
            | Some a, Some b =>
                String (ascii_of_nat (16 * a + b)%nat) (percent_decode rest')
            | _, _ => String c (percent_decode rest)
            end
        | _ => String c (percent_decode rest)
        end
      else String c (percent_decode rest)
  end.

(** The double a decimal parser reads [k/100] as: the quotient of the two
    integers, correctly rounded. *)
Definition hundredth (k : Z) : number :=
  SFdiv prec emax (Number_of_Z k) (Number_of_Z 100).

(** [x] is within half a unit in its last place of the rational [q]. *)
Definition nearest_to (x : number) (q : Q) : bool :=
  match x with
  | S754_zero _ => Qeq_bool q 0
  | S754_finite s m e =>
      Qle_bool (Qabs (Q_of_finite s m e - q)) (Qpower (2 # 1) (e - 1))
  | S754_infinity _ | S754_nan => false
  end.

(** The real number a finite double stands for; 0 for the others. *)
Definition value_of (x : number) : Q :=
  match x with
  | S754_finite s m e => Q_of_finite s m e
  | S754_zero _ | S754_infinity _ | S754_nan => 0
  end.


(** More sample responses: a mapping of audits on its own, and a second
    opportunity. *)
Definition with_audits (audits : object Audit.t) : PageSpeedResponse :=
  Samples.response Undefined (Val audits).

Definition unused_css : Audit.t :=
  Samples.audit (Val "Reduce unused CSS") (Val Samples.one_half) Undefined
    (Val "opportunity").

End Notions.

(* ===================================================================== *)
(** * Properties                                                          *)
(* ===================================================================== *)

Import JS PageSpeed Tool Net Server Spec.

(** ** The ECMAScript fragment on known values *)

Example Math_round_ties :
  map Math_round
    [ S754_finite false 4503599627370496 (-53);     (* 0.5 *)
      S754_finite false 6755399441055744 (-52);     (* 1.5 *)
      S754_finite false 5629499534213120 (-51);     (* 2.5 *)
      S754_finite true 4503599627370496 (-53);      (* -0.5 *)
      S754_finite true 6755399441055744 (-52);      (* -1.5 *)
      S754_finite false 9007199254740991 (-54) ]    (* 0.49999999999999994 *)
  = [ IInteger 1; IInteger 2; IInteger 3; IInteger 0; IInteger (-1); IInteger 0 ].
Proof. vm_compute. reflexivity. Qed.

Example Number_toString_integers :
  map (fun z => Number_toString (IInteger z))
    [ 0; 87; 100; -5; 2 ^ 53 - 1; 2 ^ 53; 2 ^ 64; 10 ^ 21; 2 ^ 70;
      2 ^ 100 ]%Z
  = [ "0"; "87"; "100"; "-5"; "9007199254740991"; "9007199254740992";
      "18446744073709552000"; "1e+21"; "1.1805916207174113e+21";
      "1.2676506002282294e+30" ].
Proof. vm_compute. reflexivity. Qed.

Example encodeURIComponent_url :
  encodeURIComponent "https://example.com/a b?x=1&y=2"
  = "https%3A%2F%2Fexample.com%2Fa%20b%3Fx%3D1%26y%3D2".
Proof. reflexivity. Qed.

Example sample_numbers_valid :
  forallb (valid_binary prec emax)
    [ Samples.one_half; Samples.score_0_873; Number_of_Z 1; Number_of_Z 100;
      Number_of_Z 60000 ]
  = true.
Proof. reflexivity. Qed.

(** ** Running the dispatcher and the handler *)

Lemma run_makePageSpeedRequest url strategy category key timeoutMs w :
  runState (makePageSpeedRequest url strategy category key timeoutMs) w =
  match settle (next_outcome w) with
  | Normal data => (data, sent (apiUrl url strategy category key) w)
  | Throw e =>
      (None, logged (report_failure e timeoutMs)
               (sent (apiUrl url strategy category key) w))
  end.
Proof.
  unfold makePageSpeedRequest, next_outcome.
  cbn -[apiUrl settle sent logged report_failure].
  destruct (settle _); reflexivity.
Qed.

Lemma run_handler args w :
  runState (handler args) w =
  let url := Tool.url args in
  let category := default performance (category_arg args) in
  let strategy := default mobile (strategy_arg args) in
  let timeout := default (Number_of_Z 60000) (Tool.timeout args) in
  match settle (next_outcome w) with
  | Normal (Some data) =>
      (respond url category strategy data, sent (request_of args w) w)
  | Normal None =>
      (Normal (text_content ("Failed to retrieve Lighthouse data for " ++ url)),
       sent (request_of args w) w)
  | Throw e =>
      (Normal (text_content ("Failed to retrieve Lighthouse data for " ++ url)),
       logged (report_failure e timeout) (sent (request_of args w) w))
  end.
Proof.
  unfold handler.
  cbn -[makePageSpeedRequest respond text_content append Number_of_Z].
  rewrite run_makePageSpeedRequest. unfold request_of.
  destruct (settle (next_outcome w)) as [[data|]|e]; reflexivity.
Qed.

Lemma settle_no_data o : no_data o -> exists e, settle o = Throw e.
Proof.
  intros H. destruct H as [ | | r Hok | r Hok Hbody]; cbn.
  - eexists; reflexivity.
  - eexists; reflexivity.
  - rewrite Hok. eexists; reflexivity.
  - rewrite Hok, Hbody. eexists; reflexivity.
Qed.

Lemma settle_delivers o data : delivers o data -> settle o = Normal (Some data).
Proof.
  intros (r & -> & Hok & Hbody). cbn. rewrite Hok, Hbody. reflexivity.
Qed.

(** Splits a goal about a call of the handler by what its request
    settles to. *)
Ltac handler_cases w :=
  rewrite !run_handler; cbv zeta;
  destruct (settle (next_outcome w)) as [[?data|]|?e]; cbn [fst snd].

Section Delivered.

Variables (args : Args) (w : World) (data : PageSpeedResponse).
Hypothesis delivered : delivers (next_outcome w) data.

(** With the response at hand the result is what [respond] makes of it. *)
Lemma handler_delivered :
  fst (runState (handler args) w)
  = respond (url args)
      (default performance (category_arg args))
      (default mobile (strategy_arg args)) data.
Proof.
  rewrite run_handler. cbv zeta.
  rewrite (settle_delivers _ _ delivered). reflexivity.
Qed.

End Delivered.

(** ** The Key Metrics block never throws *)

Lemma or_string_title a id : or_string (Audit.title a) id = title_or_id a id.
Proof.
  unfold title_or_id. destruct (Audit.title a) as [| |[|c t]]; reflexivity.
Qed.

Lemma or_string_displayValue a :
  or_string (Audit.displayValue a) "N/A" = displayValue_or_NA a.
Proof.
  unfold displayValue_or_NA.
  destruct (Audit.displayValue a) as [| |[|c t]]; reflexivity.
Qed.

Lemma map_metric_line audits ids :
  map_completion (metric_line audits)
    (filter (fun metric => truthy_object (get_property audits metric)) ids)
  = Normal (key_metric_lines audits ids).
Proof.
  induction ids as [|id ids IH]; cbn [filter]; [reflexivity|].
  unfold key_metric_lines in *. cbn [flat_map].
  destruct (get_property audits id) as [| |a] eqn:E; cbn [truthy_object];
    [exact IH | exact IH |].
  cbn [map_completion]. unfold metric_line at 1. rewrite E.
  cbn [bind_completion]. rewrite IH. unfold metric_text.
  rewrite or_string_title, or_string_displayValue. reflexivity.
Qed.

Lemma formatPerformanceMetrics_present data audits :
  lighthouse_audits data = Val audits ->
  formatPerformanceMetrics data = Normal (join LF (key_metric_lines audits metrics)).
Proof.
  intros H. unfold formatPerformanceMetrics. rewrite H.
  rewrite map_metric_line. reflexivity.
Qed.

Lemma formatPerformanceMetrics_total data :
  exists block, formatPerformanceMetrics data = Normal block.
Proof.
  destruct (lighthouse_audits data) as [| |audits] eqn:E.
  - exists "No performance metrics available".
    unfold formatPerformanceMetrics. rewrite E. reflexivity.
  - exists "No performance metrics available".
    unfold formatPerformanceMetrics. rewrite E. reflexivity.
  - eexists. apply (formatPerformanceMetrics_present _ _ E).
Qed.

Lemma handler_sends_one_request args w :
  requests (snd (runState (handler args) w))
  = (requests w ++ [request_of args w])%list.
Proof. handler_cases w; reflexivity. Qed.

(** ** Transport failures *)

(** C4. When the request brings no data -- the deadline passed, the
    transport failed, the status is outside 200-299, or the body is not
    JSON -- the tool returns the one text item
    [Failed to retrieve Lighthouse data for <url>] and nothing else, and the
    call has sent exactly one request: nothing is retried. *)
Theorem C4_no_data_one_message (args : Args) (w : World) :
  no_data (next_outcome w) ->
  fst (runState (handler args) w)
  = Normal {| content :=
                [ {| type := "text";
                     text := "Failed to retrieve Lighthouse data for " ++ url args |} ] |}
  /\ requests (snd (runState (handler args) w))
     = (requests w ++ [request_of args w])%list.
Proof.
  intros H. split; [|apply handler_sends_one_request].
  rewrite run_handler. cbv zeta.
  destruct (settle_no_data _ H) as [e ->]. reflexivity.
Qed.

Lemma C4_no_data_one_message_witness :
  (fst (runState (handler Samples.args) (Samples.world Aborted))
   = Normal {| content :=
                 [ {| type := "text";
                      text := "Failed to retrieve Lighthouse data for https://example.com/" |} ] |}
   /\ requests (snd (runState (handler Samples.args) (Samples.world Aborted)))
      = [request_of Samples.args (Samples.world Aborted)])
  /\ fst (runState (handler Samples.args)
            (Samples.world (Responded {| status := 503; body := Malformed |})))
     = Normal {| content :=
                   [ {| type := "text";
                        text := "Failed to retrieve Lighthouse data for https://example.com/" |} ] |}.
Proof.
  split.
  - exact (C4_no_data_one_message Samples.args (Samples.world Aborted) timed_out).
  - exact (proj1 (C4_no_data_one_message Samples.args
                    (Samples.world (Responded {| status := 503; body := Malformed |}))
                    (bad_status {| status := 503; body := Malformed |} eq_refl))).
Defined.

(** ** Errors reported by the remote service *)

Lemma handler_on_error args w data e :
  delivers (next_outcome w) data ->
  error data = Val e ->
  fst (runState (handler args) w)
  = Normal (text_content ("Error: " ++ or_string (Error.message e) "Unknown error")).
Proof.
  intros Hd He. rewrite (handler_delivered _ _ _ Hd).
  unfold respond. rewrite He. reflexivity.
Qed.

(** C3, as the program has it.  When the response carries an error
    object, the tool returns one text item and no report section: it is
    [Error: M] when the message is a non-empty string [M], and
    [Error: Unknown error] when the message is absent, [null] or the empty
    string. *)
Theorem C3_error_line (args : Args) (w : World) (data : PageSpeedResponse)
    (e : Error.t) :
  delivers (next_outcome w) data ->
  error data = Val e ->
  (forall M, Error.message e = Val M -> M <> "" ->
     fst (runState (handler args) w)
     = Normal {| content := [ {| type := "text"; text := "Error: " ++ M |} ] |})
  /\ (absent (Error.message e) \/ Error.message e = Val "" ->
      fst (runState (handler args) w)
      = Normal {| content := [ {| type := "text"; text := "Error: Unknown error" |} ] |}).
Proof.
  intros Hd He. rewrite (handler_on_error _ _ _ _ Hd He). split.
  - intros M HM Hne. rewrite HM. cbn [or_string].
    destruct (String.eqb_spec M ""); [contradiction|reflexivity].
  - intros [[H|H]|H]; rewrite H; reflexivity.
Qed.

Lemma C3_error_line_witness :
  fst (runState (handler Samples.args)
         (Samples.world (Samples.success (Samples.error_response (Val "API key not valid")))))
  = Normal {| content := [ {| type := "text"; text := "Error: API key not valid" |} ] |}
  /\ fst (runState (handler Samples.args)
            (Samples.world (Samples.success (Samples.error_response Undefined))))
     = Normal {| content := [ {| type := "text"; text := "Error: Unknown error" |} ] |}.
Proof.
  split.
  - refine (proj1 (C3_error_line Samples.args
                     (Samples.world (Samples.success (Samples.error_response (Val "API key not valid"))))
                     (Samples.error_response (Val "API key not valid")) _ _ eq_refl)
                  "API key not valid" eq_refl _).
    + eexists. split; [reflexivity|]. split; reflexivity.
    + discriminate.
  - refine (proj2 (C3_error_line Samples.args
                     (Samples.world (Samples.success (Samples.error_response Undefined)))
                     (Samples.error_response Undefined) _ _ eq_refl) _).
    + eexists. split; [reflexivity|]. split; reflexivity.
    + left. left. reflexivity.
Defined.

(** C3 as stated fails for the empty message: the response
    [{"error": {"code": 400, "message": ""}}] carries the message [M = ""],
    and the tool answers [Error: Unknown error], not ["Error: " + M]. *)
Lemma C3_empty_message_counterexample :
  error (Samples.error_response (Val ""))
  = Val {| Error.code := Val (Number_of_Z 400); Error.message := Val "" |}
  /\ fst (runState (handler Samples.args)
            (Samples.world (Samples.success (Samples.error_response (Val "")))))
     = Normal {| content := [ {| type := "text"; text := "Error: Unknown error" |} ] |}
  /\ fst (runState (handler Samples.args)
            (Samples.world (Samples.success (Samples.error_response (Val "")))))
     <> Normal {| content := [ {| type := "text"; text := "Error: " ++ "" |} ] |}.
Proof.
  split; [reflexivity|]. split; [reflexivity|]. discriminate.
Qed.

(** ** The layout of the report *)

(** C8. For a response without an error object, the report is the header
    line, the strategy line, the score line, an empty line, the literal
    [--- Key Metrics ---], the metrics block, an empty line, the literal
    [--- Opportunities for Improvement ---] and the opportunities block,
    in this order, each joined to the next by one line feed.  The category
    and the strategy are the requested ones, [performance] and [mobile]
    when left out. *)
Theorem C8_report_layout (args : Args) (w : World) (data : PageSpeedResponse) :
  delivers (next_outcome w) data ->
  absent (error data) ->
  let category := default performance (category_arg args) in
  let strategy := default mobile (strategy_arg args) in
  exists key_metrics,
    formatPerformanceMetrics data = Normal key_metrics
    /\ fst (runState (handler args) w)
       = Normal {| content :=
           [ {| type := "text";
                text :=
                  ("Lighthouse " ++ category_name category ++ " report for: " ++ url args)
                  ++ LF ++ ("Strategy: " ++ strategy_name strategy)
                  ++ LF ++ score_line (formattedScore (category_score data category))
                  ++ LF ++ ""
                  ++ LF ++ "--- Key Metrics ---"
                  ++ LF ++ key_metrics
                  ++ LF ++ ""
                  ++ LF ++ "--- Opportunities for Improvement ---"
                  ++ LF ++ formatOpportunities data |} ] |}.
Proof.
  intros Hd He category strategy.
  destruct (formatPerformanceMetrics_total data) as [block Hb].
  exists block. split; [exact Hb|].
  rewrite (handler_delivered _ _ _ Hd).
  unfold respond. rewrite Hb.
  destruct He as [-> | ->]; reflexivity.
Qed.

Lemma C8_report_layout_witness :
  exists key_metrics,
    formatPerformanceMetrics Samples.two_opportunities = Normal key_metrics
    /\ fst (runState (handler Samples.args)
              (Samples.world (Samples.success Samples.two_opportunities)))
       = Normal {| content :=
           [ {| type := "text";
                text :=
                  "Lighthouse performance report for: https://example.com/"
                  ++ LF ++ "Strategy: mobile"
                  ++ LF ++ "Score: N/A/100"
                  ++ LF ++ ""
                  ++ LF ++ "--- Key Metrics ---"
                  ++ LF ++ key_metrics
                  ++ LF ++ ""
                  ++ LF ++ "--- Opportunities for Improvement ---"
                  ++ LF ++ "Reduce JavaScript (Potential savings of 300 ms)" |} ] |}.
Proof.
  refine (C8_report_layout Samples.args
            (Samples.world (Samples.success Samples.two_opportunities))
            Samples.two_opportunities _ _).
  - eexists. split; [reflexivity|]. split; reflexivity.
  - left. reflexivity.
Defined.

(** ** Determinism *)

(** C9. The result of a call depends on the arguments and on the outcome
    of its request only: two worlds that give the same outcome -- whatever
    their consoles, their earlier requests and their API keys -- give the
    same result; in particular a second call that meets the same outcome
    as the first returns the same text. *)
Theorem C9_deterministic (args : Args) :
  (forall w1 w2 : World,
     next_outcome w1 = next_outcome w2 ->
     fst (runState (handler args) w1) = fst (runState (handler args) w2))
  /\ (forall w : World,
       next_outcome (snd (runState (handler args) w)) = next_outcome w ->
       fst (runState (handler args) (snd (runState (handler args) w)))
       = fst (runState (handler args) w)).
Proof.
  assert (H : forall w1 w2 : World,
             next_outcome w1 = next_outcome w2 ->
             fst (runState (handler args) w1) = fst (runState (handler args) w2)).
  { intros w1 w2 E. rewrite !run_handler. cbv zeta. rewrite E.
    destruct (settle (next_outcome w2)) as [[data|]|e]; reflexivity. }
  split; [exact H|]. intros w E. apply H. exact E.
Qed.

Lemma C9_deterministic_witness :
  fst (runState (handler Samples.args)
         (Samples.world (Samples.success Samples.two_opportunities)))
  = fst (runState (handler Samples.args)
           (Samples.used_world (Samples.success Samples.two_opportunities)))
  /\ fst (runState (handler Samples.args)
            (snd (runState (handler Samples.args)
                    (Samples.world (Samples.success Samples.two_opportunities)))))
     = fst (runState (handler Samples.args)
              (Samples.world (Samples.success Samples.two_opportunities))).
Proof.
  split.
  - exact (proj1 (C9_deterministic Samples.args)
             (Samples.world (Samples.success Samples.two_opportunities))
             (Samples.used_world (Samples.success Samples.two_opportunities))
             eq_refl).
  - exact (proj2 (C9_deterministic Samples.args)
             (Samples.world (Samples.success Samples.two_opportunities))
             eq_refl).
Defined.

(** ** The Key Metrics block *)

(** C6. With an audits mapping present, the Key Metrics block goes through
    the six identifiers [first-contentful-paint], [largest-contentful-paint],
    [total-blocking-time], [cumulative-layout-shift], [speed-index],
    [interactive] in this order; an identifier the mapping holds gives the
    one line [<title-or-id>: <displayValue-or-N/A>], an identifier it does
    not hold gives no line; the lines are joined by line feeds.  So a
    mapping that holds, of the six, only [speed-index] with title
    [Speed Index] and display value [2.1 s] gives exactly
    [Speed Index: 2.1 s]. *)
Theorem C6_key_metrics (data : PageSpeedResponse) (audits : object Audit.t) :
  lighthouse_audits data = Val audits ->
  formatPerformanceMetrics data
  = Normal (join LF (key_metric_lines audits
                       [ "first-contentful-paint";
                         "largest-contentful-paint";
                         "total-blocking-time";
                         "cumulative-layout-shift";
                         "speed-index";
                         "interactive" ]))
  /\ (forall a,
        get_property audits "first-contentful-paint" = Undefined ->
        get_property audits "largest-contentful-paint" = Undefined ->
        get_property audits "total-blocking-time" = Undefined ->
        get_property audits "cumulative-layout-shift" = Undefined ->
        get_property audits "speed-index" = Val a ->
        get_property audits "interactive" = Undefined ->
        Audit.title a = Val "Speed Index" ->
        Audit.displayValue a = Val "2.1 s" ->
        formatPerformanceMetrics data = Normal "Speed Index: 2.1 s").
Proof.
  intros H. rewrite (formatPerformanceMetrics_present _ _ H).
  split; [reflexivity|].
  intros a H1 H2 H3 H4 H5 H6 Ht Hd.
  unfold metrics, key_metric_lines. cbn [flat_map].
  rewrite H1, H2, H3, H4, H5, H6.
  unfold title_or_id, displayValue_or_NA. rewrite Ht, Hd. reflexivity.
Qed.

Lemma C6_key_metrics_witness :
  formatPerformanceMetrics Samples.speed_index_only = Normal "Speed Index: 2.1 s".
Proof.
  exact (proj2 (C6_key_metrics Samples.speed_index_only _ eq_refl)
           _ eq_refl eq_refl eq_refl eq_refl eq_refl eq_refl eq_refl eq_refl).
Defined.

(** ** The two sentences for missing audits *)

(** C1, as the program has it.  When the audits mapping is absent
    ([undefined] or [null], or the whole Lighthouse result is), the Key
    Metrics block is exactly [No performance metrics available] and the
    Opportunities block is exactly [No opportunities available], two
    different sentences.  A mapping that is present but empty is not
    absent: its Opportunities block is
    [No improvement opportunities found]. *)
Theorem C1_absent_audits (data : PageSpeedResponse) :
  (absent (lighthouse_audits data) ->
   formatPerformanceMetrics data = Normal "No performance metrics available"
   /\ formatOpportunities data = "No opportunities available"
   /\ "No performance metrics available" <> "No opportunities available")
  /\ (lighthouse_audits data = Val [] ->
      formatOpportunities data = "No improvement opportunities found").
Proof.
  unfold formatPerformanceMetrics, formatOpportunities. split.
  - intros [H | H]; rewrite H; repeat split; discriminate.
  - intros H. rewrite H. reflexivity.
Qed.

Lemma C1_absent_audits_witness :
  (formatPerformanceMetrics Samples.absent_audits
   = Normal "No performance metrics available"
   /\ formatOpportunities Samples.absent_audits = "No opportunities available"
   /\ "No performance metrics available" <> "No opportunities available")
  /\ formatOpportunities Samples.empty_audits = "No improvement opportunities found".
Proof.
  split.
  - exact (proj1 (C1_absent_audits Samples.absent_audits) (or_introl eq_refl)).
  - exact (proj2 (C1_absent_audits Samples.empty_audits) eq_refl).
Defined.

(** C1 as stated fails for the present-but-empty mapping: for
    [{"lighthouseResult": {"audits": {}}}], which has no error object,
    neither block is its sentence for missing audits. *)
Lemma C1_empty_audits_counterexample :
  lighthouse_audits Samples.empty_audits = Val []
  /\ error Samples.empty_audits = Undefined
  /\ formatPerformanceMetrics Samples.empty_audits
     <> Normal "No performance metrics available"
  /\ formatOpportunities Samples.empty_audits = "No improvement opportunities found"
  /\ formatOpportunities Samples.empty_audits <> "No opportunities available".
Proof.
  repeat split; discriminate.
Qed.

(** ** The Opportunities block *)

Lemma is_opportunity_qualifies a : is_opportunity a = true <-> qualifies a.
Proof.
  unfold is_opportunity, qualifies, strict_eq_string.
  rewrite andb_true_iff. split.
  - intros [Ht Hs]. split.
    + destruct (chain (Audit.details a) Details.type) as [| |t];
        try discriminate.
      apply String.eqb_eq in Ht. subst t. reflexivity.
    + destruct (Audit.score a) as [| |x]; try discriminate.
      exists x. split; [reflexivity|exact Hs].
  - intros [Ht (x & Hx & Hlt)]. rewrite Ht, Hx. split.
    + apply String.eqb_refl.
    + exact Hlt.
Qed.

Lemma opportunity_line_titled a t :
  Audit.title a = Val t -> opportunity_line a = t ++ savings_suffix a.
Proof.
  intros Ht. unfold opportunity_line, savings_suffix. rewrite Ht.
  destruct (Audit.displayValue a) as [| |[|c d]]; reflexivity.
Qed.

(** C7, as the program has it.  With an audits mapping present, the
    Opportunities block takes, in the mapping's order, exactly the audits
    whose [details.type] is [opportunity] and whose score is present and
    below 1; a score of exactly 1, a [null] score and a missing score are
    all left out.  When none is taken the block is
    [No improvement opportunities found]; otherwise it is one line per
    audit taken, and the line of an audit with a title is that title,
    followed by [ (<displayValue>)] exactly when the display value is a
    non-empty string. *)
Theorem C7_opportunities (data : PageSpeedResponse) (audits : object Audit.t) :
  lighthouse_audits data = Val audits ->
  (forall a, In a (opportunities audits) <-> In a (Object_values audits) /\ qualifies a)
  /\ (forall a,
        Audit.score a = Val (Number_of_Z 1) \/ absent (Audit.score a) ->
        ~ In a (opportunities audits))
  /\ (opportunities audits = [] ->
      formatOpportunities data = "No improvement opportunities found")
  /\ (opportunities audits <> [] ->
      formatOpportunities data
      = join LF (map opportunity_line
                   (filter is_opportunity (Object_values audits))))
  /\ (forall a t,
        Audit.title a = Val t ->
        opportunity_line a
        = t ++ match Audit.displayValue a with
               | Val EmptyString => ""
               | Val d => " (" ++ d ++ ")"
               | Undefined | Null => ""
               end).
Proof.
  intros H.
  assert (Hin : forall a, In a (opportunities audits)
                          <-> In a (Object_values audits) /\ qualifies a).
  { intros a. unfold opportunities. rewrite filter_In, is_opportunity_qualifies.
    reflexivity. }
  split; [exact Hin|]. split; [|split; [|split]].
  - intros a Hs Ha. apply Hin in Ha. destruct Ha as [_ [_ (x & Hx & Hlt)]].
    destruct Hs as [Hs | [Hs | Hs]]; rewrite Hs in Hx; try discriminate.
    injection Hx as <-. discriminate.
  - intros E. unfold formatOpportunities. rewrite H, E. reflexivity.
  - intros E. unfold formatOpportunities. rewrite H.
    change (filter is_opportunity (Object_values audits))
      with (opportunities audits).
    destruct (opportunities audits) as [|a l]; [contradiction|].
    reflexivity.
  - intros a t. apply opportunity_line_titled.
Qed.

Lemma C7_opportunities_witness :
  formatOpportunities Samples.two_opportunities
  = "Reduce JavaScript (Potential savings of 300 ms)"
  /\ ~ In Samples.passed_opportunity
         (opportunities [("unused-javascript", Samples.reduce_javascript);
                         ("unminified-javascript", Samples.passed_opportunity)]).
Proof.
  split.
  - refine (proj1 (proj2 (proj2 (proj2
              (C7_opportunities Samples.two_opportunities _ eq_refl)))) _).
    discriminate.
  - exact (proj1 (proj2 (C7_opportunities Samples.two_opportunities _ eq_refl))
             Samples.passed_opportunity (or_introl eq_refl)).
Defined.

(** C7 as stated fails for an empty display value: the audit of
    [Samples.empty_display_value] qualifies and has the display value [""],
    yet its line is the bare title, without the suffix [ ()]. *)
Lemma C7_empty_display_value_counterexample :
  lighthouse_audits Samples.empty_display_value
  = Val [("unused-javascript",
          Samples.audit (Val "Reduce JavaScript") (Val Samples.one_half) (Val "")
            (Val "opportunity"))]
  /\ formatOpportunities Samples.empty_display_value = "Reduce JavaScript"
  /\ formatOpportunities Samples.empty_display_value
     <> "Reduce JavaScript" ++ " (" ++ "" ++ ")".
Proof.
  split; [reflexivity|]. split; [reflexivity|]. discriminate.
Qed.

(** C2 at its failing input: the one opportunity of
    [Samples.untitled_opportunity] has no title, and its line is the text
    [undefined], in the block and in the report. *)
Lemma C2_untitled_opportunity_leaks :
  lighthouse_audits Samples.untitled_opportunity
  = Val [("unused-javascript",
          Samples.audit Undefined (Val Samples.one_half) Undefined
            (Val "opportunity"))]
  /\ formatOpportunities Samples.untitled_opportunity = "undefined"
  /\ fst (runState (handler Samples.args)
            (Samples.world (Samples.success Samples.untitled_opportunity)))
     = Normal {| content :=
         [ {| type := "text";
              text :=
                "Lighthouse performance report for: https://example.com/"
                ++ LF ++ "Strategy: mobile"
                ++ LF ++ "Score: N/A/100"
                ++ LF ++ ""
                ++ LF ++ "--- Key Metrics ---"
                ++ LF ++ ""
                ++ LF ++ ""
                ++ LF ++ "--- Opportunities for Improvement ---"
                ++ LF ++ "undefined" |} ] |}.
Proof.
  split; [reflexivity|]. split; reflexivity.
Qed.

(** ** The score line *)

Lemma category_score_missing data category :
  score_missing data category -> category_score data category = Undefined.
Proof.
  unfold category_score.
  intros [[H|H] | lr Hlr [H|H] | lr cs Hlr Hcs [H|H] | lr cs c Hlr Hcs Hc H];
    try (rewrite H; reflexivity);
    rewrite Hlr; cbn [chain]; try (rewrite H; reflexivity);
    rewrite Hcs; cbn [chain]; try (rewrite H; reflexivity).
  rewrite Hc. cbn [chain]. exact H.
Qed.

Lemma category_score_present data category lr cs c :
  lighthouseResult data = Val lr ->
  LighthouseResult.categories lr = Val cs ->
  category_entry cs category = Val c ->
  category_score data category = Category.score c.
Proof.
  intros Hlr Hcs Hc. unfold category_score.
  rewrite Hlr. cbn [chain]. rewrite Hcs. cbn [chain]. rewrite Hc. reflexivity.
Qed.

Lemma hundred : Number_of_Z 100 = S754_finite false 7036874417766400 (-46).
Proof. reflexivity. Qed.

(** Rounding a product to a double keeps the sign it is given. *)
Lemma binary_round_aux_sign mx ex lx :
  match binary_round_aux prec emax false mx ex lx with
  | S754_zero _ | S754_nan => True
  | S754_infinity s | S754_finite s _ _ => s = false
  end.
Proof.
  unfold binary_round_aux.
  destruct (shr_fexp prec emax mx ex lx) as [mrs e'].
  destruct (shr_fexp prec emax _ e' loc_Exact) as [mrs' e''].
  destruct (shr_m mrs') as [|m|m]; [exact I | | exact I].
  destruct (e'' <=? emax - prec)%Z; reflexivity.
Qed.

Lemma Q_of_finite_nonneg m e : (0 <= Q_of_finite false m e)%Q.
Proof.
  unfold Q_of_finite. cbn [cond_Zopp].
  apply Qmult_le_0_compat.
  - unfold Qle. cbn. lia.
  - apply Qpower_0_le. unfold Qle. cbn. lia.
Qed.

(** [Math.round] and rounding half away from zero agree from zero up. *)
Lemma Math_round_nonnegative (y : number) :
  match y with
  | S754_infinity s | S754_finite s _ _ => s = false
  | S754_zero _ | S754_nan => True
  end ->
  Math_round y = round_number y.
Proof.
  destruct y as [s|s| |s m e]; try reflexivity.
  intros ->. unfold Math_round, round_number, round_half_away_from_zero.
  destruct (Qle_bool 0 (Q_of_finite false m e)) eqn:E; [reflexivity|].
  pose proof (Q_of_finite_nonneg m e) as H.
  apply Qle_bool_iff in H. congruence.
Qed.

Lemma mul_hundred_sign (x : number) :
  le (Number_of_Z 0) x = true ->
  match mul x (Number_of_Z 100) with
  | S754_infinity s | S754_finite s _ _ => s = false
  | S754_zero _ | S754_nan => True
  end.
Proof.
  rewrite hundred. destruct x as [s|s| |s m e]; cbn.
  - intros _. exact I.
  - destruct s; [discriminate|reflexivity].
  - intros _. exact I.
  - destruct s; [discriminate|]. intros _.
    apply (binary_round_aux_sign (Z.pos (m * 7036874417766400)) (e + -46) loc_Exact).
Qed.

(** The double [Samples.score_0_873] is the one a JSON parser reads
    [0.873] as: it lies within half a unit in the last place of it. *)
Lemma score_0_873_nearest :
  (Qabs (Q_of_finite false 7863284949388886 (-53) - (873 # 1000))
   <= 1 # (2 ^ 54))%Q.
Proof. apply Qle_bool_iff. vm_compute. reflexivity. Qed.

(** C5. For a requested category with a score from zero up -- so for every
    score between 0 and 1 -- the score line is [Score: N/100] with [N] the
    product [score * 100], as the program computes it in double precision,
    rounded to the nearest integer with a tie going away from zero.  When
    the category or its score is not in the response the line is
    [Score: N/A/100]. *)
Theorem C5_score_line (data : PageSpeedResponse) (category : Tool.category) :
  (forall x : number,
     category_score data category = Val x ->
     le (Number_of_Z 0) x = true ->
     score_line (formattedScore (category_score data category))
     = "Score: "
         ++ Number_toString (round_number (mul x (Number_of_Z 100)))
         ++ "/100")
  /\ (score_missing data category ->
      score_line (formattedScore (category_score data category))
      = "Score: N/A/100").
Proof.
  split.
  - intros x Hx Hpos. rewrite Hx. unfold score_line, formattedScore.
    cbn [interpolate_score].
    rewrite (Math_round_nonnegative _ (mul_hundred_sign x Hpos)). reflexivity.
  - intros H. rewrite (category_score_missing _ _ H). reflexivity.
Qed.

Lemma C5_score_line_witness :
  score_line (formattedScore
                (category_score (Samples.scored (Val Samples.score_0_873)) performance))
  = "Score: 87/100"
  /\ score_line (formattedScore
                   (category_score (Samples.scored (Val Samples.score_0_873)) seo))
     = "Score: N/A/100".
Proof.
  split.
  - exact (proj1 (C5_score_line (Samples.scored (Val Samples.score_0_873)) performance)
             Samples.score_0_873 eq_refl eq_refl).
  - exact (proj2 (C5_score_line (Samples.scored (Val Samples.score_0_873)) seo)
             (no_category (Samples.scored (Val Samples.score_0_873)) seo
                _ (Samples.performance_only (Val Samples.score_0_873))
                eq_refl eq_refl (or_introl eq_refl))).
Defined.

(** C10. When the requested category is in the response and its score is
    the JSON literal [null], the score line is [Score: 0/100], not
    [Score: N/A/100]: only [undefined] counts as absent, [null * 100] is
    [0], and [0] rounds to [0]. *)
Theorem C10_null_score (data : PageSpeedResponse) (category : Tool.category)
    (lr : LighthouseResult.t) (cs : Categories.t) (c : Category.t) :
  lighthouseResult data = Val lr ->
  LighthouseResult.categories lr = Val cs ->
  category_entry cs category = Val c ->
  Category.score c = Null ->
  formattedScore (category_score data category) = Rounded (IInteger 0)
  /\ score_line (formattedScore (category_score data category)) = "Score: 0/100"
  /\ score_line (formattedScore (category_score data category)) <> "Score: N/A/100".
Proof.
  intros Hlr Hcs Hc Hnull.
  rewrite (category_score_present _ _ _ _ _ Hlr Hcs Hc), Hnull.
  repeat split. discriminate.
Qed.

Lemma C10_null_score_witness :
  formattedScore (category_score (Samples.scored Null) performance)
  = Rounded (IInteger 0)
  /\ score_line (formattedScore (category_score (Samples.scored Null) performance))
     = "Score: 0/100"
  /\ score_line (formattedScore (category_score (Samples.scored Null) performance))
     <> "Score: N/A/100".
Proof.
  exact (C10_null_score (Samples.scored Null) performance
           _ (Samples.performance_only Null) {| Category.score := Null |}
           eq_refl eq_refl eq_refl eq_refl).
Defined.

(** ** Remarks *)

(** The product that is rounded is the double product.  The double
    nearest to [0.295] lies below it, and one hundred times that double
    lies below [29.5]; the product in double precision is [29.5] exactly,
    and the score line shows [30]. *)
Remark double_product_0_295 :
  (Qabs (Q_of_finite false 5314247560297185 (-54) - (295 # 1000))
   <= 1 # (2 ^ 55))%Q
  /\ (Q_of_finite false 5314247560297185 (-54) * (100 # 1) < 295 # 10)%Q
  /\ mul (S754_finite false 5314247560297185 (-54)) (Number_of_Z 100)
     = S754_finite false 8303511812964352 (-48)
  /\ (Q_of_finite false 8303511812964352 (-48) == 295 # 10)%Q
  /\ score_line (formattedScore (Val (S754_finite false 5314247560297185 (-54))))
     = "Score: 30/100".
Proof.
  split; [apply Qle_bool_iff; vm_compute; reflexivity|].
  split; [vm_compute; reflexivity|].
  split; [vm_compute; reflexivity|].
  split; [vm_compute; reflexivity|].
  vm_compute. reflexivity.
Qed.

(** Below zero the two roundings part on a tie: [Math.round(-12.5)] is
    [-12], half away from zero gives [-13].  The score [-0.125] is such a
    case; scores are never negative in a Lighthouse result. *)
Remark Math_round_negative_tie :
  mul (S754_finite true 4503599627370496 (-55)) (Number_of_Z 100)
  = S754_finite true 7036874417766400 (-49)
  /\ Math_round (S754_finite true 7036874417766400 (-49)) = IInteger (-12)
  /\ round_number (S754_finite true 7036874417766400 (-49)) = IInteger (-13).
Proof. repeat split. Qed.

(** A body that is the JSON literal [null] is no data either. *)
Remark handler_null_body args w r :
  next_outcome w = Responded r -> ok r = true -> body r = JsonNull ->
  fst (runState (handler args) w)
  = Normal (text_content ("Failed to retrieve Lighthouse data for " ++ url args)).
Proof.
  intros E Hok Hbody. rewrite run_handler. cbv zeta. rewrite E. cbn [settle].
  rewrite Hok, Hbody. reflexivity.
Qed.



(** With an audits mapping that holds none of the six identifiers -- the
    empty mapping is one -- the Key Metrics block is the empty string. *)
Theorem key_metrics_blank (data : PageSpeedResponse) (audits : object Audit.t) :
  lighthouse_audits data = Val audits ->
  (forall id, In id metrics -> get_property audits id = Undefined) ->
  formatPerformanceMetrics data = Normal "".
Proof.
  intros H Hnone. rewrite (formatPerformanceMetrics_present _ _ H).
  unfold key_metric_lines.
  assert (E : forall ids, (forall id, In id ids -> get_property audits id = Undefined) ->
              flat_map (fun id => match get_property audits id with
                                  | Val a => [title_or_id a id ++ ": " ++ displayValue_or_NA a]
                                  | Undefined | Null => []
                                  end) ids = []).
  { induction ids as [|id ids IH]; intros Hids; [reflexivity|].
    cbn [flat_map]. rewrite (Hids id (or_introl eq_refl)).
    apply IH. intros id' Hin. apply Hids. right. exact Hin. }
  rewrite (E metrics Hnone). reflexivity.
Qed.

Lemma key_metrics_blank_witness :
  formatPerformanceMetrics Samples.two_opportunities = Normal "".
Proof.
  refine (key_metrics_blank Samples.two_opportunities _ eq_refl _).
  intros id Hin. cbn in Hin.
  repeat (destruct Hin as [<- | Hin]; [reflexivity|]). contradiction.
Defined.

(* ===================================================================== *)
(** * Further properties                                                  *)
(* ===================================================================== *)

Import Notions.

(** ** The request *)

Lemma occurs_app c a b : occurs c (a ++ b) = occurs c a || occurs c b.
Proof.
  induction a as [|c' a IH]; cbn; [reflexivity|].
  rewrite IH. apply orb_assoc.
Qed.

Lemma append_assoc (a b c : string) : (a ++ b) ++ c = a ++ b ++ c.
Proof. induction a as [|x a IH]; cbn; [reflexivity|]. rewrite IH. reflexivity. Qed.

Lemma append_cancel_l (a x y : string) : a ++ x = a ++ y -> x = y.
Proof.
  induction a as [|c a IH]; cbn; intros H; [exact H|].
  injection H as H. apply IH, H.
Qed.

Lemma encodeURIComponent_cons c rest :
  encodeURIComponent (String c rest) = encoded_char c ++ encodeURIComponent rest.
Proof. reflexivity. Qed.

(** A property of characters holds of all of them when it does of the
    256 there are. *)
Lemma all_ascii (P : ascii -> bool) :
  forallb (fun n => P (ascii_of_nat n)) (seq 0 256) = true ->
  forall c, P c = true.
Proof.
  intros H c. rewrite forallb_forall in H.
  specialize (H (nat_of_ascii c)). rewrite ascii_nat_embedding in H.
  apply H. apply in_seq. pose proof (nat_ascii_bounded c). lia.
Qed.

Lemma encoded_char_shape c :
  (if unreserved c
   then negb (Ascii.eqb c "%")
   else match encoded_char c with
        | String p (String h (String l EmptyString)) =>
            Ascii.eqb p "%"
            && match hex_value h, hex_value l with
               | Some a, Some b => Ascii.eqb (ascii_of_nat (16 * a + b)%nat) c
               | _, _ => false
               end
        | _ => false
        end) = true.
Proof. revert c. apply all_ascii. vm_compute. reflexivity. Qed.

Lemma encoded_char_decode c x :
  percent_decode (encoded_char c ++ x) = String c (percent_decode x).
Proof.
  pose proof (encoded_char_shape c) as H. unfold encoded_char in *.
  destruct (unreserved c).
  - cbn. apply negb_true_iff in H. rewrite H. reflexivity.
  - destruct (_ ++ _ ++ _) as [|p [|h [|l [|]]]]; try discriminate.
    apply andb_true_iff in H. destruct H as [Hp H].
    apply Ascii.eqb_eq in Hp. subst p. cbn [append percent_decode Ascii.eqb Bool.eqb].
    destruct (hex_value h) as [a|]; [|discriminate].
    destruct (hex_value l) as [b|]; [|discriminate].
    apply Ascii.eqb_eq in H. rewrite H. reflexivity.
Qed.

Lemma encoded_char_alphabet c d :
  occurs d (encoded_char c) = true -> unreserved d = true \/ d = "%"%char.
Proof.
  assert (H : forall c,
             (fix all (s : string) : bool :=
                match s with
                | EmptyString => true
                | String x r => (unreserved x || Ascii.eqb x "%") && all r
                end) (encoded_char c) = true).
  { apply all_ascii. vm_compute. reflexivity. }
  specialize (H c). revert H.
  induction (encoded_char c) as [|x r IH]; cbn [occurs]; [discriminate|].
  intros H Hd. apply andb_true_iff in H. destruct H as [Hx Hr].
  apply orb_true_iff in Hd. destruct Hd as [Hd|Hd].
  - apply Ascii.eqb_eq in Hd. subst x.
    apply orb_true_iff in Hx. destruct Hx as [Hx|Hx]; [left; exact Hx|].
    right. apply Ascii.eqb_eq, Hx.
  - apply IH; assumption.
Qed.

Lemma encodeURIComponent_alphabet u c :
  occurs c (encodeURIComponent u) = true -> unreserved c = true \/ c = "%"%char.
Proof.
  induction u as [|x u IH]; [discriminate|].
  rewrite encodeURIComponent_cons, occurs_app, orb_true_iff.
  intros [H|H]; [apply (encoded_char_alphabet _ _ H) | apply IH, H].
Qed.

Lemma percent_decode_encodeURIComponent u :
  percent_decode (encodeURIComponent u) = u.
Proof.
  induction u as [|x u IH]; [reflexivity|].
  rewrite encodeURIComponent_cons, encoded_char_decode, IH. reflexivity.
Qed.

Lemma encodeURIComponent_injective u u' :
  encodeURIComponent u = encodeURIComponent u' -> u = u'.
Proof.
  intros E. rewrite <- (percent_decode_encodeURIComponent u), E.
  apply percent_decode_encodeURIComponent.
Qed.

(** The target URL is encoded so that it holds unreserved characters and
    [%] only -- none of the delimiters of a query string -- and so that it
    can be read back: percent-decoding the encoded target gives the
    target.  Different targets are therefore sent as different [url]
    parameters. *)
Theorem encodeURIComponent_safe_and_reversible (url : string) :
  (forall c, occurs c (encodeURIComponent url) = true ->
             unreserved c = true \/ c = "%"%char)
  /\ existsb (fun c => occurs c (encodeURIComponent url))
       (list_ascii_of_string "&=?#/:;,+ $@") = false
  /\ percent_decode (encodeURIComponent url) = url
  /\ (forall url', encodeURIComponent url = encodeURIComponent url' -> url = url').
Proof.
  split; [apply encodeURIComponent_alphabet|].
  split; [|split; [apply percent_decode_encodeURIComponent
                  |apply encodeURIComponent_injective]].
  apply not_true_is_false. intros H. apply existsb_exists in H.
  destruct H as (c & Hin & Hc). apply encodeURIComponent_alphabet in Hc.
  cbn in Hin.
  repeat (destruct Hin as [<- | Hin]; [destruct Hc; discriminate|]).
  contradiction.
Qed.

Lemma split_at_ampersand (a b x y : string) :
  occurs "&" a = false -> occurs "&" b = false ->
  a ++ String "&" x = b ++ String "&" y -> a = b /\ x = y.
Proof.
  revert b. induction a as [|c a IH]; intros [|d b] Ha Hb E; cbn in E.
  - injection E as E. split; [reflexivity|exact E].
  - injection E as E _. subst d. cbn in Hb. discriminate.
  - injection E as E _. subst c. cbn in Ha. discriminate.
  - injection E as Ec E. subst d.
    cbn in Ha, Hb. apply orb_false_iff in Ha, Hb.
    destruct (IH b (proj2 Ha) (proj2 Hb) E) as [-> ->]. split; reflexivity.
Qed.

(** The request tells the call: two calls that send the same request URL
    have the same target, the same strategy, the same category and the
    same API key.  No target can pass for another one or add a parameter
    of its own. *)
Theorem request_determines_call (args1 args2 : Args) (w1 w2 : World) :
  request_of args1 w1 = request_of args2 w2 ->
  url args1 = url args2
  /\ default mobile (strategy_arg args1) = default mobile (strategy_arg args2)
  /\ default performance (category_arg args1)
     = default performance (category_arg args2)
  /\ PAGESPEED_API_KEY w1 = PAGESPEED_API_KEY w2.
Proof.
  unfold request_of, apiUrl.
  generalize (default mobile (strategy_arg args1)) as s1.
  generalize (default mobile (strategy_arg args2)) as s2.
  generalize (default performance (category_arg args1)) as c1.
  generalize (default performance (category_arg args2)) as c2.
  generalize (PAGESPEED_API_KEY w1) as k1.
  generalize (PAGESPEED_API_KEY w2) as k2.
  intros k2 k1 c2 c1 s2 s1 E.
  apply append_cancel_l in E.
  change ("?url=" ++ ?x) with (String "?" (String "u" (String "r" (String "l" (String "=" x))))) in E.
  injection E as E.
  change ("&strategy=" ++ ?x) with (String "&" ("strategy=" ++ x)) in E.
  assert (Hamp : forall u, occurs "&" (encodeURIComponent u) = false).
  { intros u. destruct (occurs "&" (encodeURIComponent u)) eqn:H; [|reflexivity].
    apply encodeURIComponent_alphabet in H.
    destruct H; discriminate. }
  apply split_at_ampersand in E; [|apply Hamp|apply Hamp].
  destruct E as [Eu E].
  apply encodeURIComponent_injective in Eu.
  split; [exact Eu|].
  destruct s1, s2; cbn in E; try discriminate;
    destruct c1, c2; cbn in E; try discriminate;
    injection E as E; repeat split; exact E.
Qed.

Lemma request_determines_call_witness :
  url Samples.args = "https://example.com/"
  /\ default mobile (strategy_arg Samples.args) = default mobile (Some mobile)
  /\ default performance (category_arg Samples.args)
     = default performance (Some performance)
  /\ PAGESPEED_API_KEY (Samples.world Aborted) = PAGESPEED_API_KEY (Samples.world Failed).
Proof.
  exact (request_determines_call Samples.args
           {| url := "https://example.com/";
              category_arg := Some performance;
              strategy_arg := Some mobile;
              timeout := Some (Number_of_Z 1000) |}
           (Samples.world Aborted) (Samples.world Failed) eq_refl).
Defined.

(** ** The dispatcher *)




(** ** What the text of a result tells *)







(** ** The score shown *)

Lemma decimal_head z r : decimal z <> String "N" r.
Proof.
  unfold decimal, NilZero.string_of_int.
  destruct (Z.to_int z) as [d|d]; [|discriminate].
  unfold NilZero.string_of_uint. destruct d; cbn; discriminate.
Qed.

Lemma zeros_head n r : zeros n <> String "N" r.
Proof. destruct n; cbn; discriminate. Qed.

Lemma Number_toString_positive_head z r :
  Number_toString_positive z <> String "N" r.
Proof.
  unfold Number_toString_positive.
  destruct (z <? 2 ^ 53)%Z; [apply decimal_head|].
  destruct (shortest_from z (Z.to_nat (Z.log2 z))) as [s j].
  pose proof (decimal_head s) as Hd.
  destruct (decimal s) as [|c [|c' t]].
  - destruct (_ <=? 21)%Z; [apply zeros_head|discriminate].
  - destruct (_ <=? 21)%Z; cbn; intros E; injection E as -> _;
      apply (Hd EmptyString); reflexivity.
  - destruct (_ <=? 21)%Z; cbn; intros E; injection E as -> _;
      apply (Hd (String c' t)); reflexivity.
Qed.

Lemma category_score_undefined data category :
  category_score data category = Undefined -> score_missing data category.
Proof.
  unfold category_score.
  destruct (lighthouseResult data) as [| |lr] eqn:Hlr;
    [intros _; apply no_result; left; exact Hlr
    |intros _; apply no_result; right; exact Hlr|].
  cbn [chain].
  destruct (LighthouseResult.categories lr) as [| |cs] eqn:Hcs;
    [intros _; apply (no_categories _ _ lr Hlr); left; exact Hcs
    |intros _; apply (no_categories _ _ lr Hlr); right; exact Hcs|].
  cbn [chain].
  destruct (category_entry cs category) as [| |c] eqn:Hc;
    [intros _; apply (no_category _ _ lr cs Hlr Hcs); left; exact Hc
    |intros _; apply (no_category _ _ lr cs Hlr Hcs); right; exact Hc|].
  cbn [chain]. intros H. apply (no_score _ _ lr cs c Hlr Hcs Hc H).
Qed.

(** The score line reads [Score: N/A/100] exactly when the requested
    category, or its score, is missing from the response: no number, not
    even [NaN] or one beyond any bound, is shown as [N/A], and a [null]
    score is not either. *)
Theorem score_NA_iff_missing (data : PageSpeedResponse) (category : Tool.category) :
  score_line (formattedScore (category_score data category)) = "Score: N/A/100"
  <-> score_missing data category.
Proof.
  split.
  - intros H. apply category_score_undefined.
    destruct (category_score data category) as [| |x]; [reflexivity|discriminate|].
    exfalso. unfold score_line, formattedScore, interpolate_score in H.
    apply (append_cancel_l "Score: ") in H.
    destruct (Math_round (mul x (Number_of_Z 100))) as [|[]|z];
      try discriminate.
    unfold Number_toString in H.
    destruct (z =? 0)%Z; [discriminate|].
    destruct (z <? 0)%Z; [discriminate|].
    destruct (Number_toString_positive z) as [|c t] eqn:E; [discriminate|].
    cbn in H. injection H as -> _.
    apply (Number_toString_positive_head _ _ E).
  - intros H. rewrite (category_score_missing _ _ H). reflexivity.
Qed.

(** A score with two decimals, as Lighthouse reports them, is shown as
    its hundredths exactly: for [k] from 0 to 100 the double that [k/100]
    is read as -- a valid double within half a unit in the last place of
    it -- gives the line [Score: k/100]. *)
Theorem hundredths_shown_exactly (k : Z) :
  (0 <= k <= 100)%Z ->
  valid_binary prec emax (hundredth k) = true
  /\ nearest_to (hundredth k) (k # 100) = true
  /\ score_line (formattedScore (Val (hundredth k)))
     = "Score: " ++ decimal k ++ "/100".
Proof.
  intros Hk.
  assert (H : forallb
                (fun n =>
                   let k := Z.of_nat n in
                   valid_binary prec emax (hundredth k)
                   && nearest_to (hundredth k) (k # 100)
                   && (score_line (formattedScore (Val (hundredth k)))
                       =? "Score: " ++ decimal k ++ "/100"))
                (seq 0 101) = true).
  { vm_compute. reflexivity. }
  rewrite forallb_forall in H. specialize (H (Z.to_nat k)).
  cbv zeta in H. rewrite Z2Nat.id in H by lia.
  assert (Hin : In (Z.to_nat k) (seq 0 101)) by (apply in_seq; lia).
  apply H in Hin. apply andb_true_iff in Hin. destruct Hin as [Hin Hs].
  apply andb_true_iff in Hin. destruct Hin as [Hv Hn].
  apply String.eqb_eq in Hs. repeat split; assumption.
Qed.

Lemma hundredths_shown_exactly_witness :
  valid_binary prec emax (hundredth 87) = true
  /\ nearest_to (hundredth 87) (87 # 100) = true
  /\ score_line (formattedScore (Val (hundredth 87))) = "Score: 87/100".
Proof.
  apply (hundredths_shown_exactly 87). lia.
Defined.

(** ** The score stays between 0 and 100 *)

Lemma p2_pos e : (0 < Qpower (2 # 1) e)%Q.
Proof. apply Qpower_0_lt. unfold Qlt. cbn. lia. Qed.

Lemma p2_plus a b :
  (Qpower (2 # 1) (a + b) == Qpower (2 # 1) a * Qpower (2 # 1) b)%Q.
Proof. apply Qpower_plus. intros H. unfold Qeq in H. cbn in H. lia. Qed.

Lemma p2_mono a b : (a <= b)%Z -> (Qpower (2 # 1) a <= Qpower (2 # 1) b)%Q.
Proof.
  intros H. apply Qpower_le_compat_l; [exact H|]. unfold Qle. cbn. lia.
Qed.

Lemma p2_Z n : (0 <= n)%Z -> (Qpower (2 # 1) n == inject_Z (2 ^ n))%Q.
Proof. intros H. rewrite (Zpower_Qpower 2 n H). reflexivity. Qed.

(** Powers of two with a variable exponent are atoms for [lra] and
    [nra]. *)
Ltac hide_powers :=
  repeat match goal with
         | |- context [Qpower ?a ?e] =>
             let x := fresh "x" in set (x := Qpower a e) in *; clearbody x
         | H : context [Qpower ?a ?e] |- _ =>
             let x := fresh "x" in set (x := Qpower a e) in *; clearbody x
         end.

Lemma Q_round_step (r s t x : Q) :
  (r <= s + 1 -> s * x <= t -> 0 < x -> r * x <= t + x)%Q.
Proof. intros. nra. Qed.

(** Dropping [k] low bits of a mantissa and raising the exponent by [k]
    does not raise the value. *)
Lemma shifted_value_le m k e :
  (0 <= m)%Z -> (0 <= k)%Z ->
  (inject_Z (m / 2 ^ k) * Qpower (2 # 1) (e + k)
   <= inject_Z m * Qpower (2 # 1) e)%Q.
Proof.
  intros Hm Hk. rewrite p2_plus, (p2_Z k Hk).
  assert (H : (inject_Z (m / 2 ^ k) * inject_Z (2 ^ k) <= inject_Z m)%Q).
  { rewrite <- inject_Z_mult, <- Zle_Qle, Z.mul_comm.
    apply Z.mul_div_le. apply Z.pow_pos_nonneg; lia. }
  pose proof (p2_pos e). hide_powers. nra.
Qed.

Lemma shr_1_m mrs : (0 <= shr_m mrs)%Z -> shr_m (shr_1 mrs) = (shr_m mrs / 2)%Z.
Proof.
  rewrite <- Z.div2_div.
  destruct mrs as [[|[p|p|]|p] r s]; cbn; intros H; try reflexivity; lia.
Qed.

Lemma iter_shr_1_m p :
  forall mrs, (0 <= shr_m mrs)%Z ->
  shr_m (iter_pos shr_1 p mrs) = (shr_m mrs / 2 ^ Zpos p)%Z.
Proof.
  induction p as [p IH|p IH|]; intros mrs H; cbn [iter_pos].
  - assert (H1 : (0 <= shr_m (shr_1 mrs))%Z).
    { rewrite shr_1_m by exact H. apply Z.div_pos; lia. }
    assert (H2 : (0 <= shr_m (iter_pos shr_1 p (shr_1 mrs)))%Z).
    { rewrite IH by exact H1. apply Z.div_pos; [exact H1|]. apply Z.pow_pos_nonneg; lia. }
    rewrite (IH _ H2), (IH _ H1), (shr_1_m _ H).
    rewrite !Z.div_div by (try apply Z.pow_pos_nonneg; try apply Z.mul_pos_pos;
                           try apply Z.pow_pos_nonneg; lia).
    f_equal. rewrite <- Z.pow_add_r, <- Z.pow_succ_r by lia. f_equal. lia.
  - assert (H2 : (0 <= shr_m (iter_pos shr_1 p mrs))%Z).
    { rewrite IH by exact H. apply Z.div_pos; [exact H|]. apply Z.pow_pos_nonneg; lia. }
    rewrite (IH _ H2), (IH _ H).
    rewrite Z.div_div by (try apply Z.pow_pos_nonneg; lia).
    f_equal. rewrite <- Z.pow_add_r by lia. f_equal. lia.
  - apply shr_1_m, H.
Qed.

Lemma shifted_value_ge m k e :
  (0 <= m)%Z -> (0 <= k)%Z ->
  (inject_Z m * Qpower (2 # 1) e
   <= inject_Z (m / 2 ^ k) * Qpower (2 # 1) (e + k) + Qpower (2 # 1) (e + k))%Q.
Proof.
  intros Hm Hk. rewrite p2_plus, (p2_Z k Hk).
  assert (H : (inject_Z m <= inject_Z (2 ^ k) * (inject_Z (m / 2 ^ k) + 1))%Q).
  { change 1%Q with (inject_Z 1).
    rewrite <- inject_Z_plus, <- inject_Z_mult, <- Zle_Qle.
    apply Z.lt_le_incl. apply (Z.mul_succ_div_gt m (2 ^ k)).
    apply Z.pow_pos_nonneg; lia. }
  pose proof (p2_pos e). hide_powers. nra.
Qed.

Lemma shr_spec mrs e n :
  (0 <= shr_m mrs)%Z ->
  exists k, (0 <= k)%Z
    /\ (k = 0%Z \/ (0 < k)%Z /\ k = n)
    /\ shr_m (fst (shr mrs e n)) = (shr_m mrs / 2 ^ k)%Z
    /\ snd (shr mrs e n) = (e + k)%Z.
Proof.
  intros H. unfold shr. destruct n as [|p|p]; cbn [fst snd].
  - exists 0%Z. rewrite Z.div_1_r, Z.add_0_r. repeat split; lia.
  - exists (Z.pos p). rewrite (iter_shr_1_m p mrs H).
    repeat split; lia.
  - exists 0%Z. rewrite Z.div_1_r, Z.add_0_r. repeat split; lia.
Qed.

Lemma round_nearest_even_le m l : (round_nearest_even m l <= m + 1)%Z.
Proof.
  unfold round_nearest_even. destruct l as [|[]]; try lia.
  destruct (Z.even m); lia.
Qed.

Lemma round_nearest_even_ge m l : (m <= round_nearest_even m l)%Z.
Proof.
  unfold round_nearest_even. destruct l as [|[]]; try lia.
  destruct (Z.even m); lia.
Qed.

Lemma Q_round_down (r s t x : Q) :
  (s <= r -> t <= s * x + x -> 0 < x -> t <= r * x + x)%Q.
Proof. intros. nra. Qed.

(** What a product rounds to.  A first shift brings the mantissa to the
    precision and rounds it, which moves the value by at most one unit in
    the last place; a second shift, by one more bit when rounding carried
    into a new bit, loses less than one unit of its own. *)
Lemma binary_round_aux_near (mx : positive) (ex : Z) :
  exists m1 e1 m2 e2,
    (0 <= m1)%Z /\ (0 <= m2)%Z
    /\ (inject_Z m1 * Qpower (2 # 1) e1
        <= inject_Z (Z.pos mx) * Qpower (2 # 1) ex
           + Qpower (2 # 1) (fexp prec emax (Zdigits2 (Z.pos mx) + ex)))%Q
    /\ (inject_Z (Z.pos mx) * Qpower (2 # 1) ex
        <= inject_Z m1 * Qpower (2 # 1) e1
           + Qpower (2 # 1) (fexp prec emax (Zdigits2 (Z.pos mx) + ex)))%Q
    /\ (inject_Z m2 * Qpower (2 # 1) e2 <= inject_Z m1 * Qpower (2 # 1) e1)%Q
    /\ (m2 = m1 /\ e2 = e1
        \/ (e1 < e2)%Z /\ e2 = fexp prec emax (Zdigits2 m1 + e1)
           /\ (inject_Z m1 * Qpower (2 # 1) e1
               <= inject_Z m2 * Qpower (2 # 1) e2 + Qpower (2 # 1) e2)%Q)
    /\ binary_round_aux prec emax false (Z.pos mx) ex loc_Exact
       = match m2 with
         | Z0 => S754_zero false
         | Z.pos m =>
             if (e2 <=? emax - prec)%Z then S754_finite false m e2
             else S754_infinity false
         | Z.neg _ => S754_nan
         end.
Proof.
  unfold binary_round_aux, shr_fexp.
  set (d := fexp prec emax (Zdigits2 (Z.pos mx) + ex)).
  assert (Hfirst :
    exists mrs1 e1,
      shr (shr_record_of_loc (Z.pos mx) loc_Exact) ex (d - ex) = (mrs1, e1)
      /\ (0 <= round_nearest_even (shr_m mrs1) (loc_of_shr_record mrs1))%Z
      /\ (inject_Z (round_nearest_even (shr_m mrs1) (loc_of_shr_record mrs1))
           * Qpower (2 # 1) e1
          <= inject_Z (Z.pos mx) * Qpower (2 # 1) ex + Qpower (2 # 1) d)%Q
      /\ (inject_Z (Z.pos mx) * Qpower (2 # 1) ex
          <= inject_Z (round_nearest_even (shr_m mrs1) (loc_of_shr_record mrs1))
             * Qpower (2 # 1) e1 + Qpower (2 # 1) d)%Q).
  { destruct (d - ex)%Z as [|p|p] eqn:En; cbn [shr shr_record_of_loc].
    - eexists _, _. split; [reflexivity|].
      cbn [shr_m loc_of_shr_record round_nearest_even]. split; [lia|].
      pose proof (p2_pos d). split; hide_powers; lra.
    - eexists _, _. split; [reflexivity|].
      set (mrs1 := iter_pos shr_1 p _).
      assert (Hm : shr_m mrs1 = (Z.pos mx / 2 ^ Z.pos p)%Z).
      { unfold mrs1. rewrite iter_shr_1_m; [reflexivity|cbn; lia]. }
      assert (Hm0 : (0 <= shr_m mrs1)%Z).
      { rewrite Hm. apply Z.div_pos; [lia|]. apply Z.pow_pos_nonneg; lia. }
      pose proof (round_nearest_even_le (shr_m mrs1) (loc_of_shr_record mrs1)) as Hle.
      pose proof (round_nearest_even_ge (shr_m mrs1) (loc_of_shr_record mrs1)) as Hge.
      split; [lia|].
      assert (Hd : (ex + Z.pos p = d)%Z) by lia. rewrite Hd.
      pose proof (shifted_value_le (Z.pos mx) (Z.pos p) ex) as Hs.
      pose proof (shifted_value_ge (Z.pos mx) (Z.pos p) ex) as Hs'.
      rewrite Hd, <- Hm in Hs, Hs'.
      specialize (Hs ltac:(lia) ltac:(lia)). specialize (Hs' ltac:(lia) ltac:(lia)).
      rewrite Zle_Qle, inject_Z_plus in Hle. rewrite Zle_Qle in Hge.
      split.
      + apply (Q_round_step _ _ _ _ Hle Hs (p2_pos d)).
      + apply (Q_round_down _ _ _ _ Hge Hs' (p2_pos d)).
    - eexists _, _. split; [reflexivity|].
      cbn [shr_m loc_of_shr_record round_nearest_even]. split; [lia|].
      pose proof (p2_pos d). split; hide_powers; lra. }
  destruct Hfirst as (mrs1 & e1 & -> & Hm1 & Hv1 & Hv1').
  set (m1 := round_nearest_even (shr_m mrs1) (loc_of_shr_record mrs1)) in *.
  destruct (shr_spec (shr_record_of_loc m1 loc_Exact)
              e1 (fexp prec emax (Zdigits2 m1 + e1) - e1))
    as (k & Hk & Hk' & Hm2 & He2); [cbn; exact Hm1|].
  destruct (shr _ e1 _) as [mrs2 e2]. cbn [fst snd] in Hm2, He2.
  cbn [shr_record_of_loc shr_m] in Hm2.
  exists m1, e1, (shr_m mrs2), e2.
  split; [exact Hm1|]. split.
  { rewrite Hm2. apply Z.div_pos; [exact Hm1|]. apply Z.pow_pos_nonneg; lia. }
  split; [exact Hv1|]. split; [exact Hv1'|]. split.
  { rewrite Hm2, He2. apply (shifted_value_le m1 k e1 Hm1 Hk). }
  split; [|reflexivity].
  destruct Hk' as [->|[Hpos Hkn]].
  - left. rewrite Hm2, He2, Z.div_1_r. split; lia.
  - right. split; [lia|]. split; [lia|].
    rewrite Hm2, He2. apply (shifted_value_ge m1 k e1 Hm1 Hk).
Qed.

Lemma digits2_pos_bounds m :
  (2 ^ (Z.pos (digits2_pos m) - 1) <= Z.pos m < 2 ^ Z.pos (digits2_pos m))%Z.
Proof.
  induction m as [m IH|m IH|]; cbn [digits2_pos].
  - rewrite Pos2Z.inj_succ. change (Z.pos m~1) with (2 * Z.pos m + 1)%Z.
    replace (Z.succ (Z.pos (digits2_pos m)) - 1)%Z
      with (Z.succ (Z.pos (digits2_pos m) - 1)) by lia.
    rewrite !Z.pow_succ_r by lia.
    set (a := (2 ^ (Z.pos (digits2_pos m) - 1))%Z) in *.
    set (b := (2 ^ Z.pos (digits2_pos m))%Z) in *. clearbody a b. lia.
  - rewrite Pos2Z.inj_succ. change (Z.pos m~0) with (2 * Z.pos m)%Z.
    replace (Z.succ (Z.pos (digits2_pos m)) - 1)%Z
      with (Z.succ (Z.pos (digits2_pos m) - 1)) by lia.
    rewrite !Z.pow_succ_r by lia.
    set (a := (2 ^ (Z.pos (digits2_pos m) - 1))%Z) in *.
    set (b := (2 ^ Z.pos (digits2_pos m))%Z) in *. clearbody a b. lia.
  - cbn. lia.
Qed.

Lemma Q_scale_le (a b x y : Q) :
  (0 <= a -> a <= b -> 0 <= x -> x <= y -> a * x <= b * y)%Q.
Proof. intros. nra. Qed.

(** A valid double that compares at most 1 is at most 1. *)
Lemma value_le_one m e :
  bounded prec emax m e = true ->
  le (S754_finite false m e) (Number_of_Z 1) = true ->
  (inject_Z (Z.pos m) * Qpower (2 # 1) e <= 1)%Q.
Proof.
  intros Hb Hle.
  assert (Hm : (Z.pos m < 2 ^ 53)%Z).
  { unfold bounded, canonical_mantissa, fexp, SpecFloat.emin, prec, emax in Hb.
    apply andb_true_iff in Hb. destruct Hb as [Hb _]. apply Z.eqb_eq in Hb.
    pose proof (digits2_pos_bounds m) as [_ H].
    eapply Z.lt_le_trans; [exact H|]. apply Z.pow_le_mono_r; lia. }
  change (Number_of_Z 1) with (S754_finite false 4503599627370496 (-52)) in Hle.
  unfold le, SFleb, SFcompare in Hle.
  destruct (Z.compare_spec e (-52)) as [He|He|He]; [| |discriminate].
  - subst e.
    assert (Hp : (m <= 4503599627370496)%positive).
    { unfold Pos.le, Pos.compare. intros Hgt. rewrite Hgt in Hle. discriminate. }
    pose proof (Pos2Z.pos_le_pos _ _ Hp) as Hm'.
    rewrite Zle_Qle in Hm'.
    assert (H1 : (inject_Z 4503599627370496 * Qpower (2 # 1) (-52) == 1)%Q)
      by (vm_compute; reflexivity).
    rewrite <- H1. apply Qmult_le_compat_r; [exact Hm'|].
    apply Qlt_le_weak, p2_pos.
  - assert (Hm' : (Z.pos m <= 2 ^ 53)%Z) by lia. rewrite Zle_Qle in Hm'.
    assert (H1 : (inject_Z (2 ^ 53) * Qpower (2 # 1) (-53) == 1)%Q)
      by (vm_compute; reflexivity).
    rewrite <- H1. apply Q_scale_le.
    + rewrite <- (Zle_Qle 0). lia.
    + exact Hm'.
    + apply Qlt_le_weak, p2_pos.
    + apply p2_mono. lia.
Qed.

Lemma Qfloor_le_bound (x : Q) (z : Z) : (x < inject_Z (z + 1))%Q -> (Qfloor x <= z)%Z.
Proof.
  intros H. pose proof (Qfloor_le x) as Hf.
  assert (Hlt : (inject_Z (Qfloor x) < inject_Z (z + 1))%Q)
    by (eapply Qle_lt_trans; eassumption).
  rewrite <- Zlt_Qlt in Hlt. lia.
Qed.

Lemma Number_toString_small n :
  (0 <= n < 2 ^ 53)%Z -> Number_toString (IInteger n) = decimal n.
Proof.
  intros [H0 H1]. unfold Number_toString.
  destruct (Z.eqb_spec n 0) as [->|Hn]; [reflexivity|].
  destruct (Z.ltb_spec n 0); [lia|].
  unfold Number_toString_positive.
  destruct (Z.ltb_spec n (2 ^ 53)); [reflexivity|lia].
Qed.

Lemma Qfloor_ge_bound (x : Q) (z : Z) : (inject_Z z <= x)%Q -> (z <= Qfloor x)%Z.
Proof.
  intros H. rewrite <- (Qfloor_Z z). apply Qfloor_resp_le, H.
Qed.

Lemma Qabs_le_bound (a b c : Q) : (a - b <= c -> b - a <= c -> Qabs (a - b) <= c)%Q.
Proof.
  intros H1 H2. apply Qabs_Qle_condition. split; lra.
Qed.

(** For a valid score between 0 and 1 the score line shows an integer
    between 0 and 100, and that integer differs from one hundred times
    the score by at most [1/2 + 2^-45]: the multiplication in double
    precision and the rounding never put the number shown further off. *)
Theorem score_between_0_and_100 (x : number) :
  valid_binary prec emax x = true ->
  le (Number_of_Z 0) x = true ->
  le x (Number_of_Z 1) = true ->
  exists n : Z,
    (0 <= n <= 100)%Z
    /\ score_line (formattedScore (Val x)) = "Score: " ++ decimal n ++ "/100"
    /\ (Qabs (inject_Z n - 100 * value_of x)
        <= (1 # 2) + (1 # 35184372088832))%Q.
Proof.
  intros Hvalid H0 H1.
  destruct x as [s|s| |s m e]; try discriminate.
  - exists 0%Z. split; [lia|]. split; [destruct s; reflexivity|].
    vm_compute. discriminate.
  - destruct s; discriminate.
  - destruct s; [discriminate|]. clear H0. cbn [valid_binary] in Hvalid.
    pose proof (value_le_one m e Hvalid H1) as Hx.
    unfold score_line, formattedScore, interpolate_score.
    rewrite hundred. unfold mul. cbn [SFmul xorb].
    destruct (binary_round_aux_near (m * 7036874417766400) (e + -46))
      as (m1 & e1 & m2 & e2 & Hm1 & Hm2 & Hup & Hlow & Hsh & Hsh' & ->).
    set (mx := (m * 7036874417766400)%positive) in *.
    set (ex := (e + -46)%Z) in *.
    cbn [value_of]. unfold Q_of_finite at 1. cbn [cond_Zopp].
    (* the exact product *)
    assert (HPeq : (inject_Z (Z.pos mx) * Qpower (2 # 1) ex
                    == 100 * (inject_Z (Z.pos m) * Qpower (2 # 1) e))%Q).
    { unfold mx, ex. rewrite Pos2Z.inj_mul, inject_Z_mult, p2_plus.
      assert (H100 : (inject_Z 7036874417766400 * Qpower (2 # 1) (-46) == 100)%Q)
        by (vm_compute; reflexivity).
      setoid_replace (inject_Z (Z.pos m) * inject_Z 7036874417766400
                      * (Qpower (2 # 1) e * Qpower (2 # 1) (-46)))%Q
        with ((inject_Z (Z.pos m) * Qpower (2 # 1) e)
              * (inject_Z 7036874417766400 * Qpower (2 # 1) (-46)))%Q by ring.
      rewrite H100. ring. }
    assert (HP : (inject_Z (Z.pos mx) * Qpower (2 # 1) ex <= 100)%Q).
    { rewrite HPeq. hide_powers. lra. }
    assert (HP0 : (0 <= inject_Z (Z.pos mx) * Qpower (2 # 1) ex)%Q).
    { assert (0 <= inject_Z (Z.pos mx))%Q by (rewrite <- (Zle_Qle 0); lia).
      pose proof (p2_pos ex). hide_powers. nra. }
    clear Hx.
    assert (H128 : (Qpower (2 # 1) 7 == 128)%Q) by (vm_compute; reflexivity).
    assert (Hu : (Qpower (2 # 1) (-46) == 1 # 70368744177664)%Q)
      by (vm_compute; reflexivity).
    (* one unit in the last place of the product is small *)
    assert (Hulp : (Qpower (2 # 1) (fexp prec emax (Zdigits2 (Z.pos mx) + ex))
                    <= 1 # 70368744177664)%Q).
    { rewrite <- Hu. apply p2_mono.
      assert (Hd : (Zdigits2 (Z.pos mx) + ex <= 7)%Z).
      { destruct (Z.le_gt_cases (Zdigits2 (Z.pos mx) + ex) 7) as [H|H]; [exact H|].
        exfalso. cbn [Zdigits2] in H.
        pose proof (digits2_pos_bounds mx) as [Hl _].
        rewrite Zle_Qle in Hl.
        rewrite <- (p2_Z (Z.pos (digits2_pos mx) - 1)) in Hl by lia.
        assert (H7 : (Qpower (2 # 1) 7
                      <= Qpower (2 # 1) (Z.pos (digits2_pos mx) - 1 + ex))%Q)
          by (apply p2_mono; lia).
        rewrite p2_plus, H128 in H7.
        pose proof (p2_pos ex). hide_powers. nra. }
      unfold fexp, SpecFloat.emin, prec, emax. lia. }
    (* and so is one of the rounded mantissa when it is shifted again *)
    assert (Hsecond : (inject_Z m1 * Qpower (2 # 1) e1
                       <= inject_Z m2 * Qpower (2 # 1) e2 + (1 # 70368744177664))%Q).
    { destruct Hsh' as [[-> ->]|(Hlt & He2 & Hloss)]; [lra|].
      assert (Hsmall : (Qpower (2 # 1) e2 <= 1 # 70368744177664)%Q).
      { rewrite <- Hu. apply p2_mono. rewrite He2.
        destruct m1 as [|p1|p1]; [| |lia].
        - cbn [Zdigits2] in *. unfold fexp, SpecFloat.emin, prec, emax in *. lia.
        - assert (Hd1 : (Zdigits2 (Z.pos p1) + e1 <= 7)%Z).
          { destruct (Z.le_gt_cases (Zdigits2 (Z.pos p1) + e1) 7) as [H|H];
              [exact H|].
            exfalso. cbn [Zdigits2] in H.
            pose proof (digits2_pos_bounds p1) as [Hl _].
            rewrite Zle_Qle in Hl.
            rewrite <- (p2_Z (Z.pos (digits2_pos p1) - 1)) in Hl by lia.
            assert (H7 : (Qpower (2 # 1) 7
                          <= Qpower (2 # 1) (Z.pos (digits2_pos p1) - 1 + e1))%Q)
              by (apply p2_mono; lia).
            rewrite p2_plus, H128 in H7.
            pose proof (p2_pos e1). hide_powers. nra. }
          unfold fexp, SpecFloat.emin, prec, emax. lia. }
      lra. }
    clear Hsh'.
    assert (HV : (inject_Z m2 * Qpower (2 # 1) e2 <= 100 + (1 # 4))%Q)
      by (hide_powers; lra).
    destruct m2 as [|m'|m']; [| |lia].
    + exists 0%Z. split; [lia|]. split; [reflexivity|].
      change (inject_Z 0) with 0%Q in *.
      apply Qabs_le_bound; hide_powers; lra.
    + destruct (Z.leb_spec e2 (emax - prec)) as [He|He].
      * cbn [Math_round]. unfold Q_of_finite. cbn [cond_Zopp].
        set (n := Qfloor (inject_Z (Z.pos m') * Qpower (2 # 1) e2 + (1 # 2))).
        assert (HV0 : (0 <= inject_Z (Z.pos m') * Qpower (2 # 1) e2)%Q).
        { assert (0 <= inject_Z (Z.pos m'))%Q by (rewrite <- (Zle_Qle 0); lia).
          pose proof (p2_pos e2). hide_powers. nra. }
        assert (Hn0 : (0 <= n)%Z).
        { apply Qfloor_ge_bound. change (inject_Z 0) with 0%Q. hide_powers. lra. }
        assert (Hn100 : (n <= 100)%Z).
        { apply Qfloor_le_bound. change (inject_Z (100 + 1)) with 101%Q.
          hide_powers. lra. }
        pose proof (Qfloor_le (inject_Z (Z.pos m') * Qpower (2 # 1) e2 + (1 # 2)))
          as Hfl.
        pose proof (Qlt_floor (inject_Z (Z.pos m') * Qpower (2 # 1) e2 + (1 # 2)))
          as Hfu.
        fold n in Hfl, Hfu. rewrite inject_Z_plus in Hfu.
        change (inject_Z 1) with 1%Q in Hfu.
        exists n. split; [lia|]. split.
        -- rewrite Number_toString_small; [reflexivity|].
           split; [lia|]. eapply Z.le_lt_trans; [exact Hn100|reflexivity].
        -- apply Qabs_le_bound; hide_powers; lra.
      * exfalso. unfold emax, prec in He.
        assert (H7 : (Qpower (2 # 1) 7 <= Qpower (2 # 1) e2)%Q)
          by (apply p2_mono; lia).
        rewrite H128 in H7.
        assert (1 <= inject_Z (Z.pos m'))%Q by (rewrite <- (Zle_Qle 1); lia).
        hide_powers. nra.
Qed.

Lemma score_between_0_and_100_witness :
  exists n : Z,
    (0 <= n <= 100)%Z
    /\ score_line (formattedScore (Val Samples.score_0_873))
       = "Score: " ++ decimal n ++ "/100"
    /\ (Qabs (inject_Z n - 100 * value_of Samples.score_0_873)
        <= (1 # 2) + (1 # 35184372088832))%Q.
Proof.
  exact (score_between_0_and_100 Samples.score_0_873 eq_refl eq_refl eq_refl).
Defined.

(** ** What the blocks depend on *)

Lemma get_property_In {A : Type} (o : object A) k v :
  NoDup (map fst o) -> In (k, v) o -> get_property o k = Val v.
Proof.
  induction o as [|[k' v'] o IH]; cbn [map fst get_property];
    intros Hnd Hin; [destruct Hin|].
  inversion Hnd as [|? ? Hnot Hnd']; subst.
  destruct Hin as [E|Hin].
  - injection E as -> ->. rewrite String.eqb_refl. reflexivity.
  - destruct (String.eqb_spec k' k) as [->|_]; [|apply IH; assumption].
    exfalso. apply Hnot. apply (in_map fst _ _ Hin).
Qed.

Lemma get_property_not_In {A : Type} (o : object A) k :
  ~ In k (map fst o) -> get_property o k = Undefined.
Proof.
  induction o as [|[k' v'] o IH]; cbn [map fst get_property]; intros H;
    [reflexivity|].
  destruct (String.eqb_spec k' k) as [->|_].
  - exfalso. apply H. left. reflexivity.
  - apply IH. intros Hin. apply H. right. exact Hin.
Qed.

Lemma get_property_Permutation {A : Type} (o1 o2 : object A) k :
  NoDup (map fst o1) -> Permutation o1 o2 ->
  get_property o1 k = get_property o2 k.
Proof.
  intros Hnd Hp.
  assert (Hnd2 : NoDup (map fst o2)).
  { eapply Permutation_NoDup; [|exact Hnd]. apply Permutation_map, Hp. }
  destruct (in_dec string_dec k (map fst o1)) as [Hin|Hout].
  - apply in_map_iff in Hin. destruct Hin as ([k' v] & Hk & Hin).
    cbn in Hk. subst k'.
    rewrite (get_property_In o1 k v Hnd Hin).
    symmetry. apply get_property_In; [exact Hnd2|].
    apply (Permutation_in _ Hp Hin).
  - rewrite (get_property_not_In o1 k Hout).
    symmetry. apply get_property_not_In. intros Hin. apply Hout.
    apply (Permutation_in _ (Permutation_sym (Permutation_map fst Hp)) Hin).
Qed.

Lemma key_metric_lines_ext a1 a2 ids :
  (forall id, In id ids -> get_property a1 id = get_property a2 id) ->
  key_metric_lines a1 ids = key_metric_lines a2 ids.
Proof.
  unfold key_metric_lines. induction ids as [|id ids IH]; intros H;
    [reflexivity|].
  cbn [flat_map]. rewrite (H id (or_introl eq_refl)). f_equal.
  apply IH. intros id' Hin. apply H. right. exact Hin.
Qed.

(** The Key Metrics block depends on the response through the six audits
    it looks up, and on nothing else: two mappings that hold the same
    audits under the six identifiers give the same block, whatever else
    they hold; and so do two mappings that list the same entries in
    different orders. *)
Theorem key_metrics_depend_on_six_lookups
    (data1 data2 : PageSpeedResponse) (audits1 audits2 : object Audit.t) :
  lighthouse_audits data1 = Val audits1 ->
  lighthouse_audits data2 = Val audits2 ->
  ((forall id, In id metrics ->
      get_property audits1 id = get_property audits2 id) ->
   formatPerformanceMetrics data1 = formatPerformanceMetrics data2)
  /\ (NoDup (map fst audits1) -> Permutation audits1 audits2 ->
      formatPerformanceMetrics data1 = formatPerformanceMetrics data2).
Proof.
  intros H1 H2.
  rewrite (formatPerformanceMetrics_present _ _ H1),
          (formatPerformanceMetrics_present _ _ H2).
  split.
  - intros H. rewrite (key_metric_lines_ext _ _ _ H). reflexivity.
  - intros Hnd Hp. rewrite (key_metric_lines_ext audits1 audits2 metrics);
      [reflexivity|].
    intros id _. apply get_property_Permutation; assumption.
Qed.

Lemma key_metrics_depend_on_six_lookups_witness :
  formatPerformanceMetrics
    (with_audits
       [("speed-index",
         Samples.audit (Val "Speed Index") (Val Samples.one_half)
           (Val "2.1 s") (Val "numeric"));
        ("unused-javascript", Samples.reduce_javascript)])
  = formatPerformanceMetrics Samples.speed_index_only
  /\ formatPerformanceMetrics
       (with_audits
          [("unminified-javascript", Samples.passed_opportunity);
           ("unused-javascript", Samples.reduce_javascript)])
     = formatPerformanceMetrics Samples.two_opportunities.
Proof.
  split.
  - refine (proj1 (key_metrics_depend_on_six_lookups
                     (with_audits
                        [("speed-index",
                          Samples.audit (Val "Speed Index") (Val Samples.one_half)
                            (Val "2.1 s") (Val "numeric"));
                         ("unused-javascript", Samples.reduce_javascript)])
                     Samples.speed_index_only
                     [("speed-index",
                       Samples.audit (Val "Speed Index") (Val Samples.one_half)
                         (Val "2.1 s") (Val "numeric"));
                      ("unused-javascript", Samples.reduce_javascript)]
                     [("speed-index",
                       Samples.audit (Val "Speed Index") (Val Samples.one_half)
                         (Val "2.1 s") (Val "numeric"))]
                     eq_refl eq_refl) _).
    intros id Hin. cbn in Hin.
    repeat (destruct Hin as [<- | Hin]; [reflexivity|]). contradiction.
  - refine (proj2 (key_metrics_depend_on_six_lookups
                     (with_audits
                        [("unminified-javascript", Samples.passed_opportunity);
                         ("unused-javascript", Samples.reduce_javascript)])
                     Samples.two_opportunities
                     [("unminified-javascript", Samples.passed_opportunity);
                      ("unused-javascript", Samples.reduce_javascript)]
                     [("unused-javascript", Samples.reduce_javascript);
                      ("unminified-javascript", Samples.passed_opportunity)]
                     eq_refl eq_refl) _ _).
    + repeat constructor; cbn; intuition discriminate.
    + apply perm_swap.
Defined.

Lemma join_app sep (l1 l2 : list string) :
  l1 <> [] -> l2 <> [] ->
  join sep (l1 ++ l2) = join sep l1 ++ sep ++ join sep l2.
Proof.
  unfold join. intros H1 H2. induction l1 as [|x l1 IH]; [contradiction|].
  destruct l1 as [|y l1].
  - destruct l2 as [|z l2]; [contradiction|]. reflexivity.
  - change (String.concat sep ((x :: y :: l1) ++ l2))
      with (x ++ sep ++ String.concat sep ((y :: l1) ++ l2)).
    rewrite IH by discriminate.
    change (String.concat sep (x :: y :: l1))
      with (x ++ sep ++ String.concat sep (y :: l1)).
    rewrite !append_assoc. reflexivity.
Qed.

Lemma formatOpportunities_present data audits :
  lighthouse_audits data = Val audits ->
  formatOpportunities data
  = match opportunities audits with
    | [] => "No improvement opportunities found"
    | _ :: _ => join LF (map opportunity_line (opportunities audits))
    end.
Proof.
  intros H. unfold formatOpportunities. rewrite H.
  destruct (opportunities audits); reflexivity.
Qed.

Lemma opportunities_app (a1 a2 : object Audit.t) :
  opportunities (a1 ++ a2)%list = (opportunities a1 ++ opportunities a2)%list.
Proof.
  unfold opportunities, Object_values. rewrite map_app. apply filter_app.
Qed.

(** The Opportunities block follows the order of the mapping and is built
    part by part: for a mapping made of two parts that both hold
    opportunities it is the block of the first part, a line feed and the
    block of the second; when one part holds none it is the block of the
    other.  An audit that does not qualify changes nothing, wherever it
    stands in the mapping. *)
Theorem opportunities_compose
    (data1 data2 data : PageSpeedResponse) (audits1 audits2 : object Audit.t) :
  lighthouse_audits data1 = Val audits1 ->
  lighthouse_audits data2 = Val audits2 ->
  (lighthouse_audits data = Val (audits1 ++ audits2)%list ->
   formatOpportunities data
   = match opportunities audits1, opportunities audits2 with
     | [], _ => formatOpportunities data2
     | _, [] => formatOpportunities data1
     | _, _ => formatOpportunities data1 ++ LF ++ formatOpportunities data2
     end)
  /\ (forall id audit data',
        is_opportunity audit = false ->
        lighthouse_audits data = Val (audits1 ++ audits2)%list ->
        lighthouse_audits data' = Val (audits1 ++ (id, audit) :: audits2)%list ->
        formatOpportunities data' = formatOpportunities data).
Proof.
  intros H1 H2. split.
  - intros H.
    rewrite (formatOpportunities_present _ _ H),
            (formatOpportunities_present _ _ H1),
            (formatOpportunities_present _ _ H2), opportunities_app.
    destruct (opportunities audits1) as [|x l1];
      destruct (opportunities audits2) as [|y l2]; try reflexivity.
    + rewrite app_nil_r. reflexivity.
    + change ((x :: l1) ++ y :: l2)%list with ((x :: l1) ++ (y :: l2))%list.
      rewrite map_app. apply join_app; discriminate.
  - intros id audit data' Hno H H'.
    rewrite (formatOpportunities_present _ _ H),
            (formatOpportunities_present _ _ H').
    assert (E : opportunities (audits1 ++ (id, audit) :: audits2)%list
                = opportunities (audits1 ++ audits2)%list).
    { rewrite !opportunities_app. f_equal.
      unfold opportunities, Object_values. cbn [map snd filter].
      rewrite Hno. reflexivity. }
    rewrite E. reflexivity.
Qed.

Lemma opportunities_compose_witness :
  formatOpportunities
    (with_audits [("unused-javascript", Samples.reduce_javascript);
                  ("unused-css-rules", unused_css)])
  = "Reduce JavaScript (Potential savings of 300 ms)"
      ++ LF ++ "Reduce unused CSS"
  /\ formatOpportunities
       (with_audits [("unused-javascript", Samples.reduce_javascript);
                     ("unminified-javascript", Samples.passed_opportunity);
                     ("unused-css-rules", unused_css)])
     = formatOpportunities
         (with_audits [("unused-javascript", Samples.reduce_javascript);
                       ("unused-css-rules", unused_css)]).
Proof.
  split.
  - exact (proj1 (opportunities_compose
                    (with_audits [("unused-javascript", Samples.reduce_javascript)])
                    (with_audits [("unused-css-rules", unused_css)])
                    (with_audits [("unused-javascript", Samples.reduce_javascript);
                                  ("unused-css-rules", unused_css)])
                    [("unused-javascript", Samples.reduce_javascript)]
                    [("unused-css-rules", unused_css)]
                    eq_refl eq_refl) eq_refl).
  - exact (proj2 (opportunities_compose
                    (with_audits [("unused-javascript", Samples.reduce_javascript)])
                    (with_audits [("unused-css-rules", unused_css)])
                    (with_audits [("unused-javascript", Samples.reduce_javascript);
                                  ("unused-css-rules", unused_css)])
                    [("unused-javascript", Samples.reduce_javascript)]
                    [("unused-css-rules", unused_css)]
                    eq_refl eq_refl)
             "unminified-javascript" Samples.passed_opportunity
             (with_audits [("unused-javascript", Samples.reduce_javascript);
                           ("unminified-javascript", Samples.passed_opportunity);
                           ("unused-css-rules", unused_css)])
             eq_refl eq_refl eq_refl).
Defined.

(** ** The further properties on sample calls *)

Lemma encodeURIComponent_safe_and_reversible_witness :
  existsb (fun c => occurs c (encodeURIComponent "https://example.com/a b?x=1&y=2"))
    (list_ascii_of_string "&=?#/:;,+ $@") = false
  /\ percent_decode (encodeURIComponent "https://example.com/a b?x=1&y=2")
     = "https://example.com/a b?x=1&y=2".
Proof.
  exact (conj
           (proj1 (proj2 (encodeURIComponent_safe_and_reversible
                            "https://example.com/a b?x=1&y=2")))
           (proj1 (proj2 (proj2 (encodeURIComponent_safe_and_reversible
                                   "https://example.com/a b?x=1&y=2"))))).
Defined.



Lemma score_NA_iff_missing_witness :
  score_line (formattedScore
                (category_score (Samples.scored (Val Samples.score_0_873)) seo))
  = "Score: N/A/100".
Proof.
  exact (proj2 (score_NA_iff_missing (Samples.scored (Val Samples.score_0_873)) seo)
           (no_category (Samples.scored (Val Samples.score_0_873)) seo
              _ (Samples.performance_only (Val Samples.score_0_873))
              eq_refl eq_refl (or_introl eq_refl))).
Defined.
